(** * MM-Detector: the medicine mismatch detector

    A shallow embedding of the matching and classification logic of
    [app.py] and [Home.py], the two variants of the Streamlit script, and
    the properties their specification states about it.

    Strings are [string] (sequences of 8-bit characters); the Python string
    methods are modelled on ASCII text: [lower] and [capitalize] change the
    letters A-Z / a-z only, and whitespace is the ASCII whitespace that
    [str.isspace] accepts.  Similarity scores, Python floats in the source,
    are exact rationals in lowest terms. *)

From Stdlib Require Import List String Ascii Bool Arith ZArith QArith Qreduction.
From Stdlib Require Import Lia Lqa Permutation Sorted.
Import ListNotations.
Local Close Scope Q_scope.
Local Open Scope string_scope.
Local Open Scope nat_scope.
Local Open Scope list_scope.

(* ================================================================= *)
(** * Python string primitives *)

Module Py.

(** [str.isspace] on one ASCII character: TAB, LF, VT, FF, CR, the four
    separators FS, GS, RS, US, and the space. *)
Definition isspace (c : ascii) : bool :=
  let n := nat_of_ascii c in
  ((9 <=? n) && (n <=? 13)) || ((28 <=? n) && (n <=? 32)).

Definition lower_char (c : ascii) : ascii :=
  let n := nat_of_ascii c in
  if (65 <=? n) && (n <=? 90) then ascii_of_nat (n + 32) else c.

Definition upper_char (c : ascii) : ascii :=
  let n := nat_of_ascii c in
  if (97 <=? n) && (n <=? 122) then ascii_of_nat (n - 32) else c.

(** [s.lower()] *)
Fixpoint lower (s : string) : string :=
  match s with
  | EmptyString => EmptyString
  | String c r => String (lower_char c) (lower r)
  end.

(** The texts of ASCII characters, on which [lower] and [capitalize] below
    are the methods of Python; on other texts the methods follow the case
    mappings of Unicode, which are not modelled. *)
Fixpoint is_ascii (s : string) : bool :=
  match s with
  | EmptyString => true
  | String c r => (nat_of_ascii c <? 128) && is_ascii r
  end.

(** [s.capitalize()] on a text of ASCII characters: first character
    upper-cased, the rest lower-cased. *)
Definition capitalize (s : string) : string :=
  match s with
  | EmptyString => EmptyString
  | String c r => String (upper_char c) (lower r)
  end.

(** Truthiness of a string: [if s:] holds for the non-empty ones. *)
Definition truthy (s : string) : bool :=
  match s with EmptyString => false | String _ _ => true end.

Fixpoint lstrip (s : string) : string :=
  match s with
  | EmptyString => EmptyString
  | String c r => if isspace c then lstrip r else s
  end.

Fixpoint rstrip (s : string) : string :=
  match s with
  | EmptyString => EmptyString
  | String c r =>
      let r' := rstrip r in
      if isspace c && negb (truthy r') then EmptyString else String c r'
  end.

(** [s.strip()] *)
Definition strip (s : string) : string := rstrip (lstrip s).

(** [s.split(sep)] for a one-character separator: empty fields are kept,
    so the result is never the empty list. *)
Fixpoint split_on (sep : ascii) (s : string) : list string :=
  match s with
  | EmptyString => [EmptyString]
  | String c r =>
      if Ascii.eqb c sep then EmptyString :: split_on sep r
      else match split_on sep r with
           | [] => [String c EmptyString]
           | f :: fs => String c f :: fs
           end
  end.

(** [s.split()]: the maximal runs of non-whitespace characters. *)
Fixpoint split (s : string) : list string :=
  match s with
  | EmptyString => []
  | String c r =>
      if isspace c then split r
      else match r with
           | EmptyString => [String c EmptyString]
           | String c' _ =>
               if isspace c' then String c EmptyString :: split r
               else match split r with
                    | [] => [String c EmptyString]
                    | t :: ts => String c t :: ts
                    end
           end
  end.

(** [sep.join(l)] *)
Fixpoint join (sep : string) (l : list string) : string :=
  match l with
  | [] => EmptyString
  | [x] => x
  | x :: r => (x ++ sep ++ join sep r)%string
  end.

(** [s1 <= s2] on strings: lexicographic on character codes. *)
Fixpoint str_le (s1 s2 : string) : bool :=
  match s1, s2 with
  | EmptyString, _ => true
  | String _ _, EmptyString => false
  | String a r1, String b r2 =>
      let x := nat_of_ascii a in
      let y := nat_of_ascii b in
      if x <? y then true else if y <? x then false else str_le r1 r2
  end.

(** [sorted(l, key=...)] is a stable sort.  [le x y] tells that the key of
    [x] is at most the key of [y]; an element is placed after the elements
    already there whose key is at most its own. *)
Section Sorted.
Context {A : Type} (le : A -> A -> bool).

Fixpoint insert (x : A) (l : list A) : list A :=
  match l with
  | [] => [x]
  | y :: r => if le y x then y :: insert x r else x :: l
  end.

Definition sorted (l : list A) : list A :=
  fold_left (fun acc x => insert x acc) l [].
End Sorted.

End Py.

(* ================================================================= *)
(** * The similarity library *)

Module RapidFuzz.

(** The functions of this module belong to the rapidfuzz library, which the
    scripts import and which is not under src/.  They are modelled from the
    description of the specification, made precise by the documented
    behaviour of the library (version 3, which does no preprocessing of its
    own): the edit distance counts insertions and deletions, so that a
    substitution costs 2. *)

(** Modelled from the spec: the longest common subsequence of two character
    sequences, by its recurrence; rapidfuzz is not under src/. *)
Fixpoint lcs_spec (s1 s2 : list ascii) : nat :=
  match s1 with
  | [] => 0
  | a :: s1' =>
      (fix inner (s2 : list ascii) : nat :=
         match s2 with
         | [] => 0
         | b :: s2' =>
             if Ascii.eqb a b then S (lcs_spec s1' s2')
             else Nat.max (lcs_spec s1' s2) (inner s2')
         end) s2
  end.

(** Modelled from the spec: one row of the dynamic programme that computes
    the longest common subsequences: from the row of [s1'] against every
    suffix of [s2], the row of [a :: s1']. *)
Fixpoint lcs_step (a : ascii) (s2 : list ascii) (prev : list nat) : list nat :=
  match s2, prev with
  | b :: s2', p :: prev' =>
      let cur' := lcs_step a s2' prev' in
      (if Ascii.eqb a b then S (hd 0 prev') else Nat.max p (hd 0 cur')) :: cur'
  | _, _ => [0]
  end.

(** Modelled from the spec: the last row of that programme. *)
Fixpoint lcs_rows (s1 s2 : list ascii) : list nat :=
  match s1 with
  | [] => repeat 0 (S (List.length s2))
  | a :: s1' => lcs_step a s2 (lcs_rows s1' s2)
  end.

(** Modelled from the spec: the length of the longest common subsequence of
    two texts. *)
Definition lcs (s1 s2 : string) : nat :=
  hd 0 (lcs_rows (list_ascii_of_string s1) (list_ascii_of_string s2)).

(** Modelled from the spec: the edit distance of the library's ratio, the
    number of insertions and deletions that turn [s1] into [s2]. *)
Definition indel_distance (s1 s2 : string) : nat :=
  String.length s1 + String.length s2 - 2 * lcs s1 s2.

(** Modelled from the spec: [rapidfuzz.fuzz.ratio], which the spec describes
    as a normalized edit-distance similarity scaled to 0-100, 100 for
    identical texts and 0 for completely dissimilar ones.  The distance is
    normalized by [len s1 + len s2] (to 0 when both texts are empty), and the
    similarity is [100 * (1 - normalized distance)]. *)
Definition ratio (s1 s2 : string) : Q :=
  let maximum := String.length s1 + String.length s2 in
  let norm_dist :=
    if maximum =? 0 then 0%Q
    else (Z.of_nat (indel_distance s1 s2) # Pos.of_nat maximum)%Q in
  Qred (100 * (1 - norm_dist))%Q.

(** Modelled from the spec: the token-sorted form of a text: split into
    whitespace-delimited tokens, sort the tokens alphabetically, rejoin with
    one space. *)
Definition token_sort (s : string) : string :=
  Py.join " " (Py.sorted Py.str_le (Py.split s)).

(** Modelled from the spec: [rapidfuzz.fuzz.token_sort_ratio], the [ratio]
    of the token-sorted forms. *)
Definition token_sort_ratio (s1 s2 : string) : Q :=
  ratio (token_sort s1) (token_sort s2).

(** [x < y] on scores. *)
Definition Qltb (x y : Q) : bool := negb (Qle_bool y x).

Section ExtractOne.
Variable scorer : string -> string -> Q.
Variable query : string.

(** Modelled from the spec: the loop of [rapidfuzz.process.extractOne],
    called with a list of choices and no score cutoff.  It scans the choices
    in order, keeps the first one as the result and replaces it only by a
    choice of strictly greater score, and stops at a choice that reaches the
    optimal score 100. *)
Fixpoint extractOne_loop (choices : list string) (key : nat)
         (result : option (string * Q * nat)) : option (string * Q * nat) :=
  match choices with
  | [] => result
  | choice :: rest =>
      let score := scorer query choice in
      let result' :=
        match result with
        | None => Some (choice, score, key)
        | Some (_, best, _) =>
            if Qltb best score then Some (choice, score, key) else result
        end in
      if Qeq_bool score 100 then result'
      else extractOne_loop rest (S key) result'
  end.

(** Modelled from the spec: [rapidfuzz.process.extractOne]: the choice
    selected, its score and its index, or [None] for no choice at all. *)
Definition extractOne (choices : list string) : option (string * Q * nat) :=
  extractOne_loop choices 0 None.
End ExtractOne.

End RapidFuzz.

(* ================================================================= *)
(** * Tables *)

(** The pandas tables the scripts handle, as far as the scripts look at
    them: a table is its columns in order, a column a name and its cells, a
    cell the text of its value or [None] for a missing value (NaN). *)
Module Pandas.

Definition Cell := option string.
Definition Series := list Cell.
Definition DataFrame := list (string * Series).

(** The label of a column of a table as it is read from a file: a text, or
    a value that has not the methods of a text, as the number or the date
    that heads a column of a sheet. *)
Inductive Label :=
| Text (s : string)
| NotText.

(** A table as it is read, whose labels need not be texts. *)
Definition RawFrame := list (Label * Series).

(** Code that raises is code that returns [None]. *)
Definition bind {A B : Type} (m : option A) (f : A -> option B) : option B :=
  match m with Some a => f a | None => None end.

Definition columns (df : DataFrame) : list string := map fst df.

(** [name in df.columns] *)
Definition has_column (name : string) (df : DataFrame) : bool :=
  existsb (String.eqb name) (columns df).

(** [df[name]] used as a Series: a KeyError without such a column, and with
    several of them the selection is a table, on which the Series methods
    called next raise. *)
Definition getitem (df : DataFrame) (name : string) : option Series :=
  match filter (fun c => String.eqb (fst c) name) df with
  | [c] => Some (snd c)
  | _ => None
  end.

(** [s.dropna()], the cells that are left being texts. *)
Definition dropna (s : Series) : list string :=
  flat_map (fun c => match c with Some x => [x] | None => [] end) s.

(** [s.astype(str)], as pandas does it before its version 3: a missing
    value becomes the text nan.  (From version 3 on the value stays missing;
    the two agree on a column without missing values.) *)
Definition astype_str (s : Series) : list string :=
  map (fun c => match c with Some x => x | None => "nan" end) s.

(** [df.rename(columns={old: new})] *)
Definition rename (old new : string) (df : DataFrame) : DataFrame :=
  map (fun c => if String.eqb (fst c) old then (new, snd c) else c) df.

(** [df.insert(0, name, values)] *)
Definition insert0 (name : string) (values : list string) (df : DataFrame)
  : DataFrame :=
  (name, map Some values) :: df.

Fixpoint select {A : Type} (mask : list bool) (l : list A) : list A :=
  match mask, l with
  | m :: mask', x :: l' => if m then x :: select mask' l' else select mask' l'
  | _, _ => []
  end.

(** [df[mask]]: the rows where the mask holds. *)
Definition rows_where (mask : list bool) (df : DataFrame) : DataFrame :=
  map (fun c => (fst c, select mask (snd c))) df.

(** [df.head(n)] *)
Definition head (n : nat) (df : DataFrame) : DataFrame :=
  map (fun c => (fst c, firstn n (snd c))) df.

End Pandas.

Notation "x <- m ;; f" := (Pandas.bind m (fun x => f))
  (at level 61, m at next level, right associativity).

(* ================================================================= *)
(** * app.py *)

Module App.
Import Pandas.

(** [normalize_series] *)
Definition normalize_series (s : list string) : list string :=
  map (fun x => Py.lower (Py.strip x)) s.

(** The names that [guess_name_column] looks for. *)
Definition candidates : list string :=
  ["medicine"; "medicine name"; "drug"; "brand"; "name"; "product"].

(** [c.strip().lower() in candidates] *)
Definition is_candidate (c : string) : bool :=
  existsb (String.eqb (Py.lower (Py.strip c))) candidates.

(** The loop of [guess_name_column] over [enumerate(cols)], from the
    index [i] on, and what the function returns after it, [fallback].  On a
    label that is not a text, [c.strip()] raises. *)
Fixpoint guess_loop (i : nat) (cols : list Label) (fallback : Z) : option Z :=
  match cols with
  | [] => Some fallback
  | NotText :: _ => None
  | Text c :: rest =>
      if is_candidate c then Some (Z.of_nat i)
      else guess_loop (S i) rest fallback
  end.

(** [guess_name_column]: the index of the column of the names, 0 when no
    column has a known name, -1 for a table without columns. *)
Definition guess_name_column (df : RawFrame) : option Z :=
  let cols := map fst df in
  guess_loop 0 cols (match cols with [] => (-1)%Z | _ :: _ => 0%Z end).

(** The index the select box of the columns starts at,
    [max(default_idx, 0)]. *)
Definition default_index (df : RawFrame) : option Z :=
  default_idx <- guess_name_column df ;; Some (Z.max default_idx 0).

Definition row5 (name price company category packaging : string)
  : list string := [name; price; company; category; packaging].

(** [load_default_reference] *)
Definition default_rows : list (list string) :=
  [ row5 "Paracetamol" "15" "Cipla" "Allopathy" "Strip of 10 tablets";
    row5 "Ibuprofen" "25" "Sun Pharma" "Allopathy" "Strip of 10 tablets";
    row5 "Metformin" "35" "Torrent" "Allopathy" "Strip of 15 tablets";
    row5 "Amoxicillin" "50" "Dr Reddy" "Allopathy" "Strip of 10 tablets";
    row5 "Ciprofloxacin" "40" "Alkem" "Allopathy" "Strip of 10 tablets";
    row5 "Cetirizine" "20" "Lupin" "Allopathy" "Strip of 15 tablets";
    row5 "Omeprazole" "30" "Zydus" "Allopathy" "Strip of 10 capsules";
    row5 "Atorvastatin" "60" "Sun Pharma" "Allopathy" "Strip of 10 tablets";
    row5 "Azithromycin" "55" "Abbott" "Allopathy" "Strip of 6 tablets";
    row5 "Amlodipine" "28" "Glenmark" "Allopathy" "Strip of 10 tablets";
    row5 "Ashwagandha" "120" "Himalaya" "Ayurvedic" "Bottle of 60 capsules";
    row5 "Triphala" "90" "Baidyanath" "Ayurvedic" "Bottle of 100 g powder";
    row5 "Chyawanprash" "250" "Dabur" "Ayurvedic" "Bottle of 500 g" ].

Definition load_default_reference : DataFrame :=
  map (fun '(i, name) =>
         (name, map (fun r => Some (nth i r EmptyString)) default_rows))
      (combine (seq 0 5)
               ["Medicine Name"; "Price"; "Company"; "Category"; "Packaging"]).

(** ** The detector *)

Record MatchResult := {
  Entered : string;
  Closest_Match : string;
  Match_Score : Q;
  Status : string
}.

Definition CORRECT : string := "✅ Correct".
Definition POSSIBLE_MISMATCH : string := "⚠️ Possible Mismatch".
Definition MISMATCH : string := "❌ Mismatch".
Definition NO_MATCH : string := "—".

(** The status thresholds. *)
Definition status_of (score : Q) : string :=
  if Qle_bool 95 score then CORRECT
  else if Qle_bool 70 score then POSSIBLE_MISMATCH
  else MISMATCH.

(** One turn of the loop over [entered_list]; [.iloc[idx]] raises out of
    range. *)
Definition match_entry (ref_names_display ref_names_norm : list string)
           (med : string) : option MatchResult :=
  let med_norm := Py.lower (Py.strip med) in
  match RapidFuzz.extractOne RapidFuzz.token_sort_ratio med_norm ref_names_norm with
  | Some (matched_norm, score, idx) =>
      closest_display <- nth_error ref_names_display idx ;;
      Some {| Entered := med;
              Closest_Match := closest_display;
              Match_Score := score;
              Status := status_of score |}
  | None =>
      Some {| Entered := med;
              Closest_Match := NO_MATCH;
              Match_Score := 0%Q;
              Status := MISMATCH |}
  end.

Fixpoint match_each (ref_names_display ref_names_norm entered_list : list string)
  : option (list MatchResult) :=
  match entered_list with
  | [] => Some []
  | med :: rest =>
      r <- match_entry ref_names_display ref_names_norm med ;;
      rs <- match_each ref_names_display ref_names_norm rest ;;
      Some (r :: rs)
  end.

(** The reference names as displayed, [ref_names_display]. *)
Definition display_names (medicine_name : Series) : list string :=
  map Py.strip (dropna medicine_name).

(** The detection of a batch against the column of reference names. *)
Definition detect (medicine_name : Series) (entered_list : list string)
  : option (list MatchResult) :=
  let ref_names_display := display_names medicine_name in
  let ref_names_norm := normalize_series ref_names_display in
  match_each ref_names_display ref_names_norm entered_list.

(** ** A run of the Detector page *)

Record Input := {
  df_uploaded : option DataFrame;
  selected_col : option string;
  use_as_reference : bool;
  user_input : string
}.

Record HistoryRow := {
  h_Time : string;
  h_Entered : string;
  h_Closest_Match : string;
  h_Match_Score : Q;
  h_Status : string
}.

(** The session state and the history file. *)
Record World := {
  results : list MatchResult;
  reference_df : option DataFrame;
  history_csv : list HistoryRow
}.

(** The state of a new session, over a history file with no row yet. *)
Definition initial : World :=
  {| results := []; reference_df := None; history_csv := [] |}.

Inductive Message :=
| Warning (text : string)
| Error (text : string).

Definition get_reference_df (w : World) : DataFrame :=
  match reference_df w with
  | Some df => df
  | None => load_default_reference
  end.

(** [save_history], at the time [now]. *)
Definition save_history (now : string) (results_df : list MatchResult)
           (history : list HistoryRow) : list HistoryRow :=
  history ++
  map (fun r => {| h_Time := now;
                   h_Entered := Entered r;
                   h_Closest_Match := Closest_Match r;
                   h_Match_Score := Match_Score r;
                   h_Status := Status r |}) results_df.

Definition from_upload (inp : Input) : option (list string) :=
  match df_uploaded inp, selected_col inp, use_as_reference inp with
  | Some df, Some col, false =>
      s <- getitem df col ;; Some (map Py.strip (dropna s))
  | _, _, _ => Some []
  end.

Definition from_manual (inp : Input) : list string :=
  if Py.truthy (Py.strip (user_input inp)) then
    map Py.strip
        (filter (fun x => Py.truthy (Py.strip x))
                (Py.split_on "," (user_input inp)))
  else [].

(** The order-preserving removal of the names already seen, whatever
    their case. *)
Fixpoint dedupe (seen : list string) (l : list string) : list string :=
  match l with
  | [] => []
  | x :: r =>
      if existsb (String.eqb (Py.lower x)) seen then dedupe seen r
      else x :: dedupe (Py.lower x :: seen) r
  end.

Definition entered_list (inp : Input) : option (list string) :=
  up <- from_upload inp ;;
  Some (dedupe [] (filter Py.truthy (up ++ from_manual inp))).

(** The uploaded table taken as the reference of the session. *)
Definition set_reference (inp : Input) (w : World) : option World :=
  match use_as_reference inp, df_uploaded inp, selected_col inp with
  | true, Some df, Some col =>
      let ref_df := rename col "Medicine Name" df in
      ref_df' <- (if negb (has_column "Medicine Name" ref_df)
                  then s <- getitem df col ;;
                       Some (insert0 "Medicine Name" (astype_str s) ref_df)
                  else Some ref_df) ;;
      Some {| results := results w;
              reference_df := Some ref_df';
              history_csv := history_csv w |}
  | _, _, _ => Some w
  end.

Definition NOTHING_ENTERED : string :=
  "Please upload a file or type at least one medicine name.".
Definition NO_NAME_COLUMN : string :=
  "Reference data must contain a 'Medicine Name' column.".

(** What pressing the Detect button does, at the time [now]. *)
Definition run (inp : Input) (now : string) (w : World)
  : option (World * list Message) :=
  entered <- entered_list inp ;;
  w1 <- set_reference inp w ;;
  match entered with
  | [] => Some (w1, [Warning NOTHING_ENTERED])
  | _ :: _ =>
      let ref_df := get_reference_df w1 in
      if negb (has_column "Medicine Name" ref_df) then
        Some (w1, [Error NO_NAME_COLUMN])
      else
        medicine_name <- getitem ref_df "Medicine Name" ;;
        results_df <- detect medicine_name entered ;;
        Some ({| results := results_df;
                 reference_df := reference_df w1;
                 history_csv := save_history now results_df (history_csv w1) |},
              [])
  end.

(** ** The Search Medicines page *)

Fixpoint is_prefix (p s : string) : bool :=
  match p, s with
  | EmptyString, _ => true
  | String _ _, EmptyString => false
  | String a p', String b s' => Ascii.eqb a b && is_prefix p' s'
  end.

Fixpoint find (p s : string) : bool :=
  is_prefix p s ||
  match s with
  | EmptyString => false
  | String _ s' => find p s'
  end.

Definition plain_char (c : ascii) : bool :=
  let n := nat_of_ascii c in
  ((48 <=? n) && (n <=? 57)) || ((65 <=? n) && (n <=? 90)) ||
  ((97 <=? n) && (n <=? 122)) || (n =? 32).

Fixpoint plain (s : string) : bool :=
  match s with
  | EmptyString => true
  | String c r => plain_char c && plain r
  end.

(** [Series.str.contains(query, case=False)] on one text.  pandas reads the
    query as a regular expression; a query of letters, digits and spaces
    is the search of that text whatever the case, and this is the part
    modelled: other queries have no value here. *)
Definition str_contains (query s : string) : option bool :=
  if plain query then Some (find (Py.lower query) (Py.lower s)) else None.

Fixpoint contains_each (query : string) (l : list string) : option (list bool) :=
  match l with
  | [] => Some []
  | s :: r =>
      b <- str_contains query s ;;
      bs <- contains_each query r ;;
      Some (b :: bs)
  end.

Definition search (w : World) (query : string) : option DataFrame :=
  let ref_df := get_reference_df w in
  if Py.truthy query then
    s <- getitem ref_df "Medicine Name" ;;
    mask <- contains_each query (astype_str s) ;;
    Some (rows_where mask ref_df)
  else Some (head 25 ref_df).

(** ** The History page *)

(** The rows shown when only the mismatches are asked for, the rows whose
    status contains the word Mismatch. *)
Definition mismatches_only (hist : list HistoryRow) : list HistoryRow :=
  filter (fun r => find "Mismatch" (h_Status r)) hist.

End App.

(* ================================================================= *)
(** * Home.py *)

Module Home.

(** [load_medicine_data], the column of reference names. *)
Definition medicine_names : list string :=
  [ "Paracetamol"; "Amoxicillin"; "Ciprofloxacin"; "Metformin"; "Ibuprofen";
    "Azithromycin"; "Cetirizine"; "Omeprazole"; "Atorvastatin"; "Amlodipine" ].

(** The entered texts, stripped and capitalized, the blank ones left out. *)
Definition clean (medicines_list : list string) : list string :=
  map (fun m => Py.capitalize (Py.strip m))
      (filter (fun m => Py.truthy (Py.strip m)) medicines_list).

(** ** The detector *)

Record Result := {
  Entered : string;
  Closest_Match : option string;
  Match_Score : Q;
  Mismatch : string
}.

Definition YES : string := "❌ Yes".
Definition NO : string := "✅ No".

(** One turn of the inner loop over the reference names, on the pair
    [(best_match, best_score)]. *)
Definition improve (med : string) (best : option string * Q) (ref : string)
  : option string * Q :=
  let score := RapidFuzz.ratio (Py.lower med) (Py.lower ref) in
  if RapidFuzz.Qltb (snd best) score then (Some ref, score) else best.

Definition best_of (refs : list string) (med : string) : option string * Q :=
  fold_left (improve med) refs (None, 0%Q).

Definition check (refs : list string) (med : string) : Result :=
  let (best_match, best_score) := best_of refs med in
  {| Entered := med;
     Closest_Match := best_match;
     Match_Score := best_score;
     Mismatch := if RapidFuzz.Qltb best_score 90 then YES else NO |}.

(** The detection of a batch against the reference names [refs], which
    the script takes from [medicine_names]. *)
Definition detect (refs : list string) (medicines_list : list string)
  : list Result :=
  map (check refs) medicines_list.

(** A record of the session history. *)
Record Record_ := {
  time : string;
  results : list Result
}.

(** What pressing the Detect button does, at the time [now]: the table
    shown and the history of the session.  With no entered name the table
    has no column, the bar chart over its columns raises, and the run ends
    there. *)
Definition run (refs : list string) (medicines_list : list string)
           (now : string) (history : list Record_)
  : option (list Result * list Record_) :=
  let result_df := detect refs medicines_list in
  match result_df with
  | [] => None
  | _ :: _ =>
      Some (result_df, history ++ [{| time := now; results := result_df |}])
  end.

(** The Analytics page: the counts it shows under Mismatch and under
    Correct. *)
Definition count_flag (flag : string) (history : list Record_) : nat :=
  list_sum
    (map (fun rec =>
            List.length (filter (fun r => String.eqb (Mismatch r) flag)
                                (results rec)))
         history).

Definition mismatch_counts (history : list Record_)
  : list (string * nat) :=
  [ ("Mismatch", count_flag YES history);
    ("Correct", count_flag NO history) ].

(** ** The Search Medicines page *)

(** The list [matches]. *)
Definition matches (refs : list string) (query : string)
  : list (string * Q) :=
  filter (fun m => RapidFuzz.Qltb 60 (snd m))
         (map (fun ref => (ref, RapidFuzz.ratio (Py.lower query) (Py.lower ref)))
              refs).

(** The order of the keys [-x[1]]. *)
Definition key_le (x y : string * Q) : bool :=
  Qle_bool (- snd x) (- snd y).

(** What the page shows: nothing for an empty query, the message that no
    close match was found, or the lines of the matches. *)
Inductive View :=
| Blank
| NoCloseMatch
| Found (lines : list (string * Q)).

Definition search (refs : list string) (query : string) : View :=
  if Py.truthy query then
    match matches refs query with
    | [] => NoCloseMatch
    | ms => Found (Py.sorted key_le ms)
    end
  else Blank.

Definition lines_of (v : View) : list (string * Q) :=
  match v with
  | Found lines => lines
  | _ => []
  end.

End Home.

(* ================================================================= *)
(** * Notions the statements use *)

Module Spec.

Definition in_range (q : Q) : Prop := (0 <= q)%Q /\ (q <= 100)%Q.

(** [c], at index [i] of [l], has the highest score of [l], and every
    entry before it a strictly smaller one. *)
Definition first_best (score : string -> Q) (l : list string)
           (i : nat) (c : string) : Prop :=
  nth_error l i = Some c /\
  (forall x, In x l -> (score x <= score c)%Q) /\
  (forall j x, j < i -> nth_error l j = Some x -> (score x < score c)%Q).

(** The suffixes of a list, the list itself first. *)
Fixpoint tails {A : Type} (l : list A) : list (list A) :=
  match l with
  | [] => [[]]
  | _ :: r => l :: tails r
  end.

(** The entries of [l] that have the score [v]. *)
Definition with_score (v : Q) (l : list (string * Q)) : list (string * Q) :=
  filter (fun m => Qeq_bool (snd m) v) l.

(** Descending order of the scores. *)
Definition descending (l : list (string * Q)) : Prop :=
  StronglySorted (fun x y => (snd y <= snd x)%Q) l.

(** The selected column of an upload, when there are both, exists. *)
Definition well_formed (inp : App.Input) : Prop :=
  match App.df_uploaded inp, App.selected_col inp with
  | Some df, Some col => Pandas.getitem df col <> None
  | _, _ => True
  end.

(** The states a session of app.py goes through: a new session over
    whatever history file there is, the state a run of the Detector page
    ends in, and the state a run leaves when it raises after it has taken
    the upload as the reference. *)
Inductive reachable : App.World -> Prop :=
| reach_new (history : list App.HistoryRow) :
    reachable {| App.results := []; App.reference_df := None;
                 App.history_csv := history |}
| reach_run (inp : App.Input) (now : string) (w w1 : App.World)
            (shown : list App.Message) :
    reachable w -> App.run inp now w = Some (w1, shown) -> reachable w1
| reach_raise (inp : App.Input) (w w1 : App.World) :
    reachable w -> App.set_reference inp w = Some w1 -> reachable w1.

(** The label is a text and not one of the known names of the column of
    the names. *)
Definition text_unknown (l : Pandas.Label) : Prop :=
  exists c, l = Pandas.Text c /\ App.is_candidate c = false.

(** The text [s] contains the text [p]. *)
Definition contains (s p : string) : Prop :=
  exists pre post, s = (pre ++ p ++ post)%string.

(** The text has neither leading nor trailing whitespace and is not
    empty. *)
Definition trimmed (s : string) : Prop :=
  s <> EmptyString /\ Py.strip s = s.

End Spec.

(* ================================================================= *)
(** * Rational scores *)

Lemma Qltb_lt (x y : Q) : RapidFuzz.Qltb x y = true <-> (x < y)%Q.
Proof.
  unfold RapidFuzz.Qltb. rewrite negb_true_iff.
  split; intro H.
  - apply Qnot_le_lt. intro L. apply Qle_bool_iff in L. congruence.
  - destruct (Qle_bool y x) eqn:E; [|reflexivity].
    apply Qle_bool_iff in E. exfalso. exact (Qlt_not_le _ _ H E).
Qed.

Lemma Qltb_ge (x y : Q) : RapidFuzz.Qltb x y = false <-> (y <= x)%Q.
Proof.
  unfold RapidFuzz.Qltb. rewrite negb_false_iff. apply Qle_bool_iff.
Qed.

(* ================================================================= *)
(** * The longest common subsequence *)

Section Lcs.
Import RapidFuzz.

Lemma lcs_spec_nil_r (s1 : list ascii) : lcs_spec s1 [] = 0.
Proof. destruct s1; reflexivity. Qed.

Lemma lcs_spec_cons (a b : ascii) (s1 s2 : list ascii) :
  lcs_spec (a :: s1) (b :: s2) =
  if Ascii.eqb a b then S (lcs_spec s1 s2)
  else Nat.max (lcs_spec s1 (b :: s2)) (lcs_spec (a :: s1) s2).
Proof. reflexivity. Qed.

Lemma lcs_spec_le_l (s1 s2 : list ascii) : lcs_spec s1 s2 <= List.length s1.
Proof.
  revert s2. induction s1 as [|a s1 IH]; intro s2; [apply Nat.le_refl|].
  induction s2 as [|b s2 IH2]; [simpl; lia|].
  rewrite lcs_spec_cons. destruct (Ascii.eqb a b).
  - specialize (IH s2). simpl. lia.
  - specialize (IH (b :: s2)). simpl in *. lia.
Qed.

Lemma lcs_spec_le_r (s1 s2 : list ascii) : lcs_spec s1 s2 <= List.length s2.
Proof.
  revert s2. induction s1 as [|a s1 IH]; intro s2; [simpl; lia|].
  induction s2 as [|b s2 IH2]; [simpl; lia|].
  rewrite lcs_spec_cons. destruct (Ascii.eqb a b).
  - specialize (IH s2). simpl. lia.
  - specialize (IH (b :: s2)). simpl in *. lia.
Qed.

Lemma lcs_spec_refl (s : list ascii) : lcs_spec s s = List.length s.
Proof.
  induction s as [|a s IH]; [reflexivity|].
  rewrite lcs_spec_cons, Ascii.eqb_refl, IH. reflexivity.
Qed.

(** The rows of the dynamic programme hold the longest common
    subsequences with the suffixes of the second text. *)
Lemma lcs_step_spec (a : ascii) (s1 s2 : list ascii) :
  lcs_step a s2 (map (lcs_spec s1) (Spec.tails s2)) =
  map (lcs_spec (a :: s1)) (Spec.tails s2).
Proof.
  induction s2 as [|b s2 IH]; [reflexivity|].
  cbn [Spec.tails map lcs_step]. rewrite IH.
  f_equal. rewrite lcs_spec_cons.
  destruct s2; reflexivity.
Qed.

Lemma lcs_rows_spec (s1 s2 : list ascii) :
  lcs_rows s1 s2 = map (lcs_spec s1) (Spec.tails s2).
Proof.
  induction s1 as [|a s1 IH].
  - simpl. induction s2 as [|b s2 IH2]; [reflexivity|].
    cbn [Spec.tails map List.length repeat] in *. rewrite IH2. reflexivity.
  - cbn [lcs_rows]. rewrite IH. apply lcs_step_spec.
Qed.

Lemma lcs_correct (s1 s2 : string) :
  lcs s1 s2 = lcs_spec (list_ascii_of_string s1) (list_ascii_of_string s2).
Proof.
  unfold lcs. rewrite lcs_rows_spec.
  destruct (list_ascii_of_string s2); reflexivity.
Qed.

Lemma length_list_ascii (s : string) :
  List.length (list_ascii_of_string s) = String.length s.
Proof. induction s; simpl; congruence. Qed.

Lemma lcs_le_l (s1 s2 : string) : lcs s1 s2 <= String.length s1.
Proof. rewrite lcs_correct, <- length_list_ascii. apply lcs_spec_le_l. Qed.

Lemma lcs_le_r (s1 s2 : string) : lcs s1 s2 <= String.length s2.
Proof. rewrite lcs_correct, <- length_list_ascii. apply lcs_spec_le_r. Qed.

Lemma lcs_refl (s : string) : lcs s s = String.length s.
Proof. rewrite lcs_correct, <- length_list_ascii. apply lcs_spec_refl. Qed.

(** The subtraction of [indel_distance] never truncates. *)
Lemma indel_distance_exact (s1 s2 : string) :
  indel_distance s1 s2 + 2 * lcs s1 s2 = String.length s1 + String.length s2.
Proof.
  unfold indel_distance.
  pose proof (lcs_le_l s1 s2). pose proof (lcs_le_r s1 s2). lia.
Qed.

Lemma ratio_in_range (s1 s2 : string) : Spec.in_range (ratio s1 s2).
Proof.
  unfold Spec.in_range, ratio.
  set (m := String.length s1 + String.length s2).
  rewrite !Qred_correct.
  destruct (Nat.eqb_spec m 0) as [E|NE].
  - split; vm_compute; discriminate.
  - pose proof (indel_distance_exact s1 s2) as Hd. fold m in Hd.
    assert (Hm : (Z.of_nat (indel_distance s1 s2) <= Z.pos (Pos.of_nat m))%Z).
    { rewrite <- (Nat2Pos.id m) in Hd by exact NE.
      rewrite <- positive_nat_Z. lia. }
    set (d := Z.of_nat (indel_distance s1 s2)) in *.
    assert (H0 : (0 <= d # Pos.of_nat m)%Q).
    { unfold Qle; simpl. subst d. lia. }
    assert (H1 : (d # Pos.of_nat m <= 1)%Q).
    { unfold Qle; simpl. lia. }
    split; lra.
Qed.

Lemma ratio_refl (s : string) : ratio s s = 100%Q.
Proof.
  unfold ratio, indel_distance. rewrite lcs_refl.
  replace (String.length s + String.length s - 2 * String.length s) with 0 by lia.
  destruct (String.length s + String.length s =? 0); [reflexivity|].
  change 100%Q with (Qred 100). apply Qred_complete.
  unfold Qeq. simpl. lia.
Qed.

End Lcs.

(* ================================================================= *)
(** * The stable sort *)

Section SortedFacts.
Context {A : Type} (le : A -> A -> bool).
Hypothesis le_total : forall x y, le x y = true \/ le y x = true.
Hypothesis le_trans : forall x y z, le x y = true -> le y z = true -> le x z = true.

Let R (x y : A) : Prop := le x y = true.
Let eqv (x y : A) : bool := le x y && le y x.

Lemma insert_perm (x : A) (l : list A) :
  Permutation (Py.insert le x l) (x :: l).
Proof.
  induction l as [|y r IH]; simpl; [reflexivity|].
  destruct (le y x); [|reflexivity].
  rewrite IH. apply perm_swap.
Qed.

Lemma sorted_snoc (l : list A) (x : A) :
  Py.sorted le (l ++ [x]) = Py.insert le x (Py.sorted le l).
Proof. unfold Py.sorted. rewrite fold_left_app. reflexivity. Qed.

Lemma sorted_perm (l : list A) : Permutation (Py.sorted le l) l.
Proof.
  induction l as [|x l IH] using rev_ind; [reflexivity|].
  rewrite sorted_snoc, insert_perm, IH.
  apply Permutation_cons_append.
Qed.

Lemma insert_sorted (x : A) (l : list A) :
  StronglySorted R l -> StronglySorted R (Py.insert le x l).
Proof.
  induction 1 as [|y r Hs IH Hall]; simpl.
  - constructor; constructor.
  - destruct (le y x) eqn:E.
    + constructor; [exact IH|].
      rewrite Forall_forall in *. intros w Hw.
      apply (Permutation_in _ (insert_perm x r)) in Hw.
      destruct Hw as [<-|Hw]; [exact E|auto].
    + assert (Hxy : R x y) by (destruct (le_total x y); [assumption|congruence]).
      constructor; [constructor; assumption|].
      constructor; [exact Hxy|].
      rewrite Forall_forall in *. intros w Hw.
      exact (le_trans _ _ _ Hxy (Hall w Hw)).
Qed.

Lemma sorted_sorted (l : list A) : StronglySorted R (Py.sorted le l).
Proof.
  induction l as [|x l IH] using rev_ind; [constructor|].
  rewrite sorted_snoc. apply insert_sorted, IH.
Qed.

(** Stability: an element goes behind the elements of its own key. *)
Lemma filter_insert (z x : A) (l : list A) :
  StronglySorted R l ->
  filter (eqv z) (Py.insert le x l) =
  filter (eqv z) l ++ (if eqv z x then [x] else []).
Proof.
  induction 1 as [|y r Hs IH Hall]; [reflexivity|].
  cbn [Py.insert]. destruct (le y x) eqn:E.
  - cbn [filter]. rewrite IH. destruct (eqv z y); reflexivity.
  - assert (Hfar : forall w, In w (y :: r) -> le w x = false).
    { intros w [<-|Hw]; [exact E|].
      rewrite Forall_forall in Hall.
      destruct (le w x) eqn:Ew; [|reflexivity].
      rewrite <- E. symmetry. exact (le_trans _ _ _ (Hall w Hw) Ew). }
    set (t := y :: r) in *. clearbody t.
    cbn [filter]. destruct (eqv z x) eqn:Ezx; [|rewrite app_nil_r; reflexivity].
    apply andb_true_iff in Ezx. destruct Ezx as [Hzx _].
    assert (Hnone : filter (eqv z) t = []).
    { induction t as [|w t IHt]; [reflexivity|].
      cbn [filter]. rewrite IHt by (intros; apply Hfar; right; assumption).
      destruct (eqv z w) eqn:Ezw; [|reflexivity].
      apply andb_true_iff in Ezw. destruct Ezw as [_ Hwz].
      pose proof (Hfar w (or_introl eq_refl)) as Hf.
      rewrite (le_trans _ _ _ Hwz Hzx) in Hf. discriminate. }
    rewrite Hnone. reflexivity.
Qed.

Lemma sorted_stable (z : A) (l : list A) :
  filter (eqv z) (Py.sorted le l) = filter (eqv z) l.
Proof.
  induction l as [|x l IH] using rev_ind; [reflexivity|].
  rewrite sorted_snoc, filter_insert by apply sorted_sorted.
  rewrite IH, filter_app. cbn [filter].
  destruct (eqv z x); reflexivity.
Qed.

(** Two sorted arrangements of the same elements are one, when the
    order tells the elements apart. *)
Hypothesis le_antisym : forall x y, le x y = true -> le y x = true -> x = y.

Lemma sorted_unique (l1 l2 : list A) :
  StronglySorted R l1 -> StronglySorted R l2 -> Permutation l1 l2 -> l1 = l2.
Proof.
  intro H1. revert l2.
  induction H1 as [|a l1 Hs IH Ha]; intros l2 H2 HP.
  - apply Permutation_nil in HP. congruence.
  - destruct H2 as [|b l2 Hs2 Hb].
    + apply Permutation_sym, Permutation_nil in HP. discriminate.
    + assert (a = b) as ->.
      { rewrite Forall_forall in Ha, Hb.
        assert (Ia : In a (b :: l2)) by (apply (Permutation_in _ HP); left; reflexivity).
        assert (Ib : In b (a :: l1))
          by (apply (Permutation_in _ (Permutation_sym HP)); left; reflexivity).
        destruct Ia as [->|Ia]; [reflexivity|].
        destruct Ib as [->|Ib]; [reflexivity|].
        apply le_antisym; [apply Ha, Ib|apply Hb, Ia]. }
      f_equal. apply IH; [assumption|].
      exact (Permutation_cons_inv HP).
Qed.

Lemma sorted_of_perm (l1 l2 : list A) :
  Permutation l1 l2 -> Py.sorted le l1 = Py.sorted le l2.
Proof.
  intro HP. apply sorted_unique; try apply sorted_sorted.
  rewrite !sorted_perm. exact HP.
Qed.

End SortedFacts.

(* ================================================================= *)
(** * The order of the strings *)

Lemma nat_of_ascii_inj (a b : ascii) : nat_of_ascii a = nat_of_ascii b -> a = b.
Proof.
  intro H. rewrite <- (ascii_nat_embedding a), <- (ascii_nat_embedding b).
  congruence.
Qed.

Lemma str_le_total (x y : string) : Py.str_le x y = true \/ Py.str_le y x = true.
Proof.
  revert y. induction x as [|a x IH]; intro y; [left; reflexivity|].
  destruct y as [|b y]; [right; reflexivity|].
  simpl.
  destruct (Nat.ltb_spec (nat_of_ascii a) (nat_of_ascii b)); [left; reflexivity|].
  destruct (Nat.ltb_spec (nat_of_ascii b) (nat_of_ascii a)); [right; reflexivity|].
  apply IH.
Qed.

Lemma str_le_trans (x y z : string) :
  Py.str_le x y = true -> Py.str_le y z = true -> Py.str_le x z = true.
Proof.
  revert y z. induction x as [|a x IH]; intros y z; [reflexivity|].
  destruct y as [|b y]; [discriminate|].
  destruct z as [|c z]; [intros _ H; discriminate H|].
  simpl.
  destruct (Nat.ltb_spec (nat_of_ascii a) (nat_of_ascii b));
  destruct (Nat.ltb_spec (nat_of_ascii b) (nat_of_ascii a));
  destruct (Nat.ltb_spec (nat_of_ascii b) (nat_of_ascii c));
  destruct (Nat.ltb_spec (nat_of_ascii c) (nat_of_ascii b));
  destruct (Nat.ltb_spec (nat_of_ascii a) (nat_of_ascii c));
  destruct (Nat.ltb_spec (nat_of_ascii c) (nat_of_ascii a));
  try discriminate; try reflexivity; try lia.
  apply IH.
Qed.

Lemma str_le_antisym (x y : string) :
  Py.str_le x y = true -> Py.str_le y x = true -> x = y.
Proof.
  revert y. induction x as [|a x IH]; intro y.
  - destruct y; [reflexivity|discriminate].
  - destruct y as [|b y]; [discriminate|].
    simpl.
    destruct (Nat.ltb_spec (nat_of_ascii a) (nat_of_ascii b));
    destruct (Nat.ltb_spec (nat_of_ascii b) (nat_of_ascii a));
    try discriminate; try lia.
    intros H1 H2. f_equal; [apply nat_of_ascii_inj; lia|apply IH; assumption].
Qed.

(** Texts with the same tokens, in whatever order, have one sorted form. *)
Lemma token_sort_of_perm (s1 s2 : string) :
  Permutation (Py.split s1) (Py.split s2) ->
  RapidFuzz.token_sort s1 = RapidFuzz.token_sort s2.
Proof.
  intro HP. unfold RapidFuzz.token_sort.
  rewrite (sorted_of_perm Py.str_le str_le_total str_le_trans str_le_antisym
                          _ _ HP).
  reflexivity.
Qed.

Lemma token_sort_ratio_in_range (s1 s2 : string) :
  Spec.in_range (RapidFuzz.token_sort_ratio s1 s2).
Proof. apply ratio_in_range. Qed.

(* ================================================================= *)
(** * The selection of the best match *)

Section Selection.
Variable score : string -> Q.

Lemma first_best_app (l r : list string) (i : nat) (c : string) :
  Spec.first_best score l i c ->
  (forall y, In y r -> (score y <= score c)%Q) ->
  Spec.first_best score (l ++ r) i c.
Proof.
  intros (Hn & Hmax & Hfirst) Hr.
  assert (Hi : i < List.length l) by (apply nth_error_Some; congruence).
  repeat split.
  - rewrite nth_error_app1; assumption.
  - intros x Hx. apply in_app_or in Hx. destruct Hx; auto.
  - intros j x Hj Hx. rewrite nth_error_app1 in Hx by lia. eauto.
Qed.

Lemma first_best_new (l : list string) (x : string) :
  (forall y, In y l -> (score y < score x)%Q) ->
  Spec.first_best score (l ++ [x]) (List.length l) x.
Proof.
  intro Hl. repeat split.
  - rewrite nth_error_app2, Nat.sub_diag by lia. reflexivity.
  - intros y Hy. apply in_app_or in Hy. destruct Hy as [Hy|[<-|[]]].
    + apply Qlt_le_weak; auto.
    + apply Qle_refl.
  - intros j y Hj Hy. rewrite nth_error_app1 in Hy by lia.
    apply Hl. eapply nth_error_In; eassumption.
Qed.

Lemma first_best_below (l : list string) (i : nat) (c x : string) :
  Spec.first_best score l i c -> (score c < score x)%Q ->
  forall y, In y l -> (score y < score x)%Q.
Proof.
  intros (_ & Hmax & _) Hlt y Hy.
  eapply Qle_lt_trans; [apply Hmax, Hy|exact Hlt].
Qed.

Lemma first_best_unique (l : list string) (i j : nat) (c d : string) :
  Spec.first_best score l i c -> Spec.first_best score l j d -> i = j /\ c = d.
Proof.
  intros (Hi & Hmi & Hfi) (Hj & Hmj & Hfj).
  assert (i = j) as ->.
  { destruct (Nat.lt_trichotomy i j) as [L|[E|L]]; [|exact E|].
    - pose proof (Hfj _ _ L Hi) as H1.
      pose proof (Hmi d (nth_error_In _ _ Hj)) as H2. lra.
    - pose proof (Hfi _ _ L Hj) as H1.
      pose proof (Hmj c (nth_error_In _ _ Hi)) as H2. lra. }
  split; congruence.
Qed.
End Selection.

Section ExtractOneFacts.
Variable scorer : string -> string -> Q.
Variable query : string.
Hypothesis scorer_le_100 : forall x, (scorer query x <= 100)%Q.

Let score := scorer query.

Lemma extractOne_loop_spec (rest pre : list string) (c : string) (i : nat) :
  Spec.first_best score pre i c ->
  exists c' i',
    RapidFuzz.extractOne_loop scorer query rest (List.length pre)
                              (Some (c, score c, i))
    = Some (c', score c', i') /\
    Spec.first_best score (pre ++ rest) i' c'.
Proof.
  revert pre c i. induction rest as [|x rest IH]; intros pre c i Hb.
  - exists c, i. rewrite app_nil_r. split; [reflexivity|exact Hb].
  - cbn [RapidFuzz.extractOne_loop]. fold score.
    assert (Hnext : exists c1 i1,
               (if RapidFuzz.Qltb (score c) (score x)
                then Some (x, score x, List.length pre)
                else Some (c, score c, i)) = Some (c1, score c1, i1) /\
               Spec.first_best score (pre ++ [x]) i1 c1 ).
    { destruct (RapidFuzz.Qltb (score c) (score x)) eqn:E.
      - exists x, (List.length pre). split; [reflexivity|].
        apply first_best_new. apply Qltb_lt in E.
        eapply first_best_below; eassumption.
      - exists c, i. split; [reflexivity|].
        apply first_best_app; [exact Hb|].
        intros y [<-|[]]. apply Qltb_ge, E. }
    destruct Hnext as (c1 & i1 & -> & Hb1).
    destruct (Qeq_bool (score x) 100) eqn:E100.
    + exists c1, i1. split; [reflexivity|].
      change (pre ++ x :: rest) with (pre ++ [x] ++ rest).
      rewrite app_assoc. apply first_best_app; [exact Hb1|].
      intros y _. apply Qeq_bool_iff in E100.
      destruct Hb1 as (_ & Hmax & _).
      assert (Hx : In x (pre ++ [x])) by (apply in_or_app; right; left; reflexivity).
      specialize (Hmax x Hx).
      pose proof (scorer_le_100 y) as Hy. fold score in Hy. lra.
    + destruct (IH (pre ++ [x]) c1 i1 Hb1) as (c' & i' & Heq & Hb').
      rewrite length_app, Nat.add_1_r in Heq.
      exists c', i'. rewrite <- app_assoc in Hb'. split; assumption.
Qed.

(** The choice kept is the first one of the highest score. *)
Lemma extractOne_spec (choices : list string) :
  choices <> [] ->
  exists c i,
    RapidFuzz.extractOne scorer query choices = Some (c, score c, i) /\
    Spec.first_best score choices i c.
Proof.
  destruct choices as [|x rest]; [congruence|]. intros _.
  unfold RapidFuzz.extractOne. cbn [RapidFuzz.extractOne_loop]. fold score.
  assert (Hb : Spec.first_best score ([] ++ [x]) 0 x)
    by (apply (first_best_new score []); intros y []).
  destruct (Qeq_bool (score x) 100) eqn:E100.
  - exists x, 0. split; [reflexivity|].
    change (x :: rest) with ([x] ++ rest).
    apply first_best_app; [exact Hb|].
    intros y _. apply Qeq_bool_iff in E100.
    pose proof (scorer_le_100 y) as Hy. fold score in Hy. lra.
  - destruct (extractOne_loop_spec rest [x] x 0 Hb) as (c' & i' & Heq & Hb').
    exists c', i'. split; assumption.
Qed.
End ExtractOneFacts.

Section HomeBest.
Variable med : string.

Let score (ref : string) : Q := RapidFuzz.ratio (Py.lower med) (Py.lower ref).

(** What the pair [(best_match, best_score)] is after the names [pre]. *)
Let inv (pre : list string) (best : option string * Q) : Prop :=
  (best = (None, 0%Q) /\ forall y, In y pre -> (score y <= 0)%Q) \/
  (exists c i, best = (Some c, score c) /\ (0 < score c)%Q /\
               Spec.first_best score pre i c).

Lemma improve_inv (rest pre : list string) (best : option string * Q) :
  inv pre best -> inv (pre ++ rest) (fold_left (Home.improve med) rest best).
Proof.
  revert pre best. induction rest as [|x rest IH]; intros pre best Hinv.
  - rewrite app_nil_r. exact Hinv.
  - cbn [fold_left].
    change (pre ++ x :: rest) with (pre ++ [x] ++ rest). rewrite app_assoc.
    apply IH. unfold Home.improve. fold (score x).
    destruct Hinv as [[-> Hz]|(c & i & -> & Hpos & Hb)]; cbn [snd].
    + destruct (RapidFuzz.Qltb 0 (score x)) eqn:E.
      * right. exists x, (List.length pre). apply Qltb_lt in E.
        repeat split; try assumption.
        -- rewrite nth_error_app2, Nat.sub_diag by lia. reflexivity.
        -- intros y Hy. apply in_app_or in Hy.
           destruct Hy as [Hy|[<-|[]]]; [specialize (Hz y Hy)|]; lra.
        -- intros j y Hj Hy. rewrite nth_error_app1 in Hy by lia.
           specialize (Hz y (nth_error_In _ _ Hy)). lra.
      * left. split; [reflexivity|]. apply Qltb_ge in E.
        intros y Hy. apply in_app_or in Hy.
        destruct Hy as [Hy|[<-|[]]]; auto.
    + destruct (RapidFuzz.Qltb (score c) (score x)) eqn:E.
      * right. exists x, (List.length pre). apply Qltb_lt in E.
        split; [reflexivity|]. split; [lra|].
        apply first_best_new. eapply first_best_below; eassumption.
      * right. exists c, i. split; [reflexivity|]. split; [assumption|].
        apply first_best_app; [exact Hb|].
        intros y [<-|[]]. apply Qltb_ge, E.
Qed.

Lemma best_of_spec (refs : list string) :
  (Home.best_of refs med = (None, 0%Q) /\
   forall y, In y refs -> (score y <= 0)%Q) \/
  (exists c i, Home.best_of refs med = (Some c, score c) /\
               (0 < score c)%Q /\ Spec.first_best score refs i c).
Proof.
  apply (improve_inv refs [] (None, 0%Q)).
  left. split; [reflexivity|]. intros y [].
Qed.
End HomeBest.

(* ================================================================= *)
(** * The detection loop of app.py *)

Lemma nil_or_not {A : Type} (l : list A) : l = [] \/ l <> [].
Proof. destruct l; [left; reflexivity|right; discriminate]. Qed.

Section AppDetect.
Variable ref_names_display : list string.

Let ref_names_norm := App.normalize_series ref_names_display.

Lemma norm_length : List.length ref_names_norm = List.length ref_names_display.
Proof. apply length_map. Qed.

Lemma norm_nth (i : nat) (d : string) :
  nth_error ref_names_display i = Some d ->
  nth_error ref_names_norm i = Some (Py.lower (Py.strip d)).
Proof.
  intro H. unfold ref_names_norm, App.normalize_series.
  rewrite nth_error_map, H. reflexivity.
Qed.

(** With no reference name, the entry of the dash. *)
Lemma match_entry_empty (med : string) :
  ref_names_display = [] ->
  App.match_entry ref_names_display ref_names_norm med =
  Some {| App.Entered := med;
          App.Closest_Match := App.NO_MATCH;
          App.Match_Score := 0%Q;
          App.Status := App.MISMATCH |}.
Proof. unfold ref_names_norm. intros ->. reflexivity. Qed.

(** With reference names, the first one of the highest score. *)
Lemma match_entry_best (med : string) :
  ref_names_display <> [] ->
  exists d i,
    let score := RapidFuzz.token_sort_ratio (Py.lower (Py.strip med)) in
    App.match_entry ref_names_display ref_names_norm med =
    Some {| App.Entered := med;
            App.Closest_Match := d;
            App.Match_Score := score (Py.lower (Py.strip d));
            App.Status := App.status_of (score (Py.lower (Py.strip d))) |} /\
    nth_error ref_names_display i = Some d /\
    Spec.first_best score ref_names_norm i (Py.lower (Py.strip d)).
Proof.
  intro Hne.
  assert (Hn : ref_names_norm <> []).
  { intro E. apply Hne. apply length_zero_iff_nil.
    rewrite <- norm_length, E. reflexivity. }
  destruct (extractOne_spec RapidFuzz.token_sort_ratio (Py.lower (Py.strip med))
              (fun x => proj2 (token_sort_ratio_in_range _ x)) _ Hn)
    as (c & i & Heq & Hb).
  assert (Hi : i < List.length ref_names_display).
  { rewrite <- norm_length. apply nth_error_Some.
    destruct Hb as (Hc & _). congruence. }
  destruct (nth_error ref_names_display i) as [d|] eqn:Hd;
    [|apply nth_error_None in Hd; lia].
  assert (c = Py.lower (Py.strip d)) as ->.
  { destruct Hb as (Hc & _). rewrite (norm_nth _ _ Hd) in Hc. congruence. }
  exists d, i. cbn zeta. unfold App.match_entry.
  rewrite Heq. cbn [Pandas.bind]. rewrite Hd.
  repeat split; try reflexivity; apply Hb.
Qed.

Lemma match_entry_total (med : string) :
  exists r, App.match_entry ref_names_display ref_names_norm med = Some r.
Proof.
  destruct (nil_or_not ref_names_display) as [E|NE].
  - eexists. apply match_entry_empty. exact E.
  - destruct (match_entry_best med NE) as (d & i & H & _).
    eexists. exact H.
Qed.

(** The loop gives every entry its result, in order. *)
Lemma match_each_total (entered_list : list string) :
  exists rs,
    App.match_each ref_names_display ref_names_norm entered_list = Some rs /\
    Forall2 (fun med r =>
               App.match_entry ref_names_display ref_names_norm med = Some r)
            entered_list rs.
Proof.
  induction entered_list as [|med rest (rs & Hrs & Hall)].
  - exists []. split; [reflexivity|constructor].
  - destruct (match_entry_total med) as (r & Hr).
    exists (r :: rs). cbn [App.match_each]. rewrite Hr, Hrs.
    split; [reflexivity|constructor; assumption].
Qed.
End AppDetect.

Lemma detect_total (medicine_name : Pandas.Series) (entered_list : list string) :
  exists rs,
    App.detect medicine_name entered_list = Some rs /\
    Forall2 (fun med r =>
               App.match_entry (App.display_names medicine_name)
                 (App.normalize_series (App.display_names medicine_name)) med
               = Some r)
            entered_list rs.
Proof. apply match_each_total. Qed.

(** What holds of the result of every entry holds of the results of the
    detection. *)
Lemma detect_Forall (P : App.MatchResult -> Prop)
      (medicine_name : Pandas.Series) (entered_list : list string) :
  (forall med r,
      App.match_entry (App.display_names medicine_name)
        (App.normalize_series (App.display_names medicine_name)) med = Some r ->
      P r) ->
  exists rs, App.detect medicine_name entered_list = Some rs /\ Forall P rs.
Proof.
  intro HP. destruct (detect_total medicine_name entered_list) as (rs & Hrs & Hall).
  exists rs. split; [exact Hrs|]. clear Hrs.
  induction Hall as [|med r meds rs Hr _ IH]; constructor; [exact (HP _ _ Hr)|exact IH].
Qed.

Lemma match_entry_cases (display : list string) (med : string) (r : App.MatchResult) :
  App.match_entry display (App.normalize_series display) med = Some r ->
  (display = [] /\
   r = {| App.Entered := med; App.Closest_Match := App.NO_MATCH;
          App.Match_Score := 0%Q; App.Status := App.MISMATCH |}) \/
  (exists d i,
      let score := RapidFuzz.token_sort_ratio (Py.lower (Py.strip med)) in
      r = {| App.Entered := med; App.Closest_Match := d;
             App.Match_Score := score (Py.lower (Py.strip d));
             App.Status := App.status_of (score (Py.lower (Py.strip d))) |} /\
      nth_error display i = Some d /\
      Spec.first_best score (App.normalize_series display) i
                      (Py.lower (Py.strip d))).
Proof.
  intro H. destruct (nil_or_not display) as [E|NE].
  - left. split; [exact E|].
    rewrite match_entry_empty in H by exact E. congruence.
  - right. destruct (match_entry_best display med NE) as (d & i & Heq & Hd & Hb).
    exists d, i. cbn zeta in *. rewrite Heq in H.
    repeat split; try congruence; apply Hb.
Qed.

(* ================================================================= *)
(** * The detection loop of Home.py *)

Lemma check_cases (refs : list string) (med : string) :
  let score := fun ref => RapidFuzz.ratio (Py.lower med) (Py.lower ref) in
  (Home.check refs med =
     {| Home.Entered := med; Home.Closest_Match := None;
        Home.Match_Score := 0%Q; Home.Mismatch := Home.YES |} /\
   forall y, In y refs -> (score y <= 0)%Q) \/
  (exists c i,
      Home.check refs med =
        {| Home.Entered := med; Home.Closest_Match := Some c;
           Home.Match_Score := score c;
           Home.Mismatch := if RapidFuzz.Qltb (score c) 90
                            then Home.YES else Home.NO |} /\
      (0 < score c)%Q /\ Spec.first_best score refs i c).
Proof.
  cbn zeta. unfold Home.check.
  destruct (best_of_spec med refs) as [[-> Hz]|(c & i & -> & Hpos & Hb)].
  - left. split; [reflexivity|exact Hz].
  - right. exists c, i. repeat split; try assumption; apply Hb.
Qed.

(* ================================================================= *)
(** * The properties of the specification *)

Lemma Qle_bool_false (x y : Q) : Qle_bool x y = false -> (y < x)%Q.
Proof.
  intro H. apply Qnot_le_lt. intro L. apply Qle_bool_iff in L. congruence.
Qed.

Lemma status_of_thresholds (s : Q) :
  ((95 <= s)%Q -> App.status_of s = App.CORRECT) /\
  ((70 <= s)%Q -> (s < 95)%Q -> App.status_of s = App.POSSIBLE_MISMATCH) /\
  ((s < 70)%Q -> App.status_of s = App.MISMATCH).
Proof.
  unfold App.status_of.
  destruct (Qle_bool 95 s) eqn:E95;
    [apply Qle_bool_iff in E95|apply Qle_bool_false in E95];
    (destruct (Qle_bool 70 s) eqn:E70;
     [apply Qle_bool_iff in E70|apply Qle_bool_false in E70]);
    repeat split; intros; try reflexivity; exfalso; lra.
Qed.

(** C1, as the two scripts have it.  In app.py the status of every result
    of a detection is a function of its score alone, by the thresholds:
    a score of at least 95 is Correct, one of at least 70 and below 95 a
    Possible Mismatch, one below 70 a Mismatch, and with no reference name
    the status is Mismatch.  In Home.py a result has a mismatch flag, a
    function of its score alone by the one threshold 90: Yes below 90, No
    from 90 on. *)
Theorem status_by_thresholds :
  (forall medicine_name entered_list,
      exists rs,
        App.detect medicine_name entered_list = Some rs /\
        Forall (fun r => App.Status r = App.status_of (App.Match_Score r)) rs) /\
  (forall s : Q,
      ((95 <= s)%Q -> App.status_of s = App.CORRECT) /\
      ((70 <= s)%Q -> (s < 95)%Q -> App.status_of s = App.POSSIBLE_MISMATCH) /\
      ((s < 70)%Q -> App.status_of s = App.MISMATCH)) /\
  (forall entered_list,
      exists rs,
        App.detect [] entered_list = Some rs /\
        Forall (fun r => App.Status r = App.MISMATCH) rs) /\
  (forall refs medicines_list,
      Forall (fun r =>
                ((Home.Match_Score r < 90)%Q -> Home.Mismatch r = Home.YES) /\
                ((90 <= Home.Match_Score r)%Q -> Home.Mismatch r = Home.NO))
             (Home.detect refs medicines_list)).
Proof.
  split; [|split; [exact status_of_thresholds|split]].
  - intros col entered. apply detect_Forall. intros med r Hr.
    apply match_entry_cases in Hr.
    destruct Hr as [[_ ->]|(d & i & -> & _)]; reflexivity.
  - intros entered. apply detect_Forall. intros med r Hr.
    apply match_entry_cases in Hr.
    destruct Hr as [[_ ->]|(d & i & _ & Hd & _)]; [reflexivity|].
    destruct i; discriminate.
  - intros refs meds. unfold Home.detect. apply Forall_forall.
    intros r Hr. apply in_map_iff in Hr. destruct Hr as (med & <- & _).
    unfold Home.check. destruct (Home.best_of refs med) as [bm bs]. cbn.
    destruct (RapidFuzz.Qltb bs 90) eqn:E.
    + apply Qltb_lt in E. split; [reflexivity|lra].
    + apply Qltb_ge in E. split; [lra|reflexivity].
Qed.

Lemma status_by_thresholds_witness :
  App.status_of 96%Q = App.CORRECT /\
  App.status_of (1000 # 11)%Q = App.POSSIBLE_MISMATCH /\
  App.status_of (300 # 11)%Q = App.MISMATCH.
Proof.
  split; [|split].
  - apply (proj1 (proj1 (proj2 status_by_thresholds) 96%Q)).
    vm_compute. discriminate.
  - apply (proj1 (proj2 (proj1 (proj2 status_by_thresholds) (1000 # 11)%Q))).
    + vm_compute. discriminate.
    + vm_compute. reflexivity.
  - apply (proj2 (proj2 (proj1 (proj2 status_by_thresholds) (300 # 11)%Q))).
    vm_compute. reflexivity.
Defined.

(** C1 as stated fails on Home.py: the entries Parasetamol and Parasitamol
    both have a best score from 70 to below 95, the range of the one status
    Possible Mismatch, and Home.py flags the first as no mismatch, which its
    Analytics page counts as Correct, and the second as a mismatch; no
    naming of the three statuses gives its flag. *)
Lemma home_flag_not_by_three_tiers :
  Home.check Home.medicine_names "Parasetamol" =
    {| Home.Entered := "Parasetamol"; Home.Closest_Match := Some "Paracetamol";
       Home.Match_Score := (1000 # 11)%Q; Home.Mismatch := Home.NO |} /\
  Home.check Home.medicine_names "Parasitamol" =
    {| Home.Entered := "Parasitamol"; Home.Closest_Match := Some "Paracetamol";
       Home.Match_Score := (900 # 11)%Q; Home.Mismatch := Home.YES |} /\
  App.status_of (1000 # 11)%Q = App.POSSIBLE_MISMATCH /\
  App.status_of (900 # 11)%Q = App.POSSIBLE_MISMATCH /\
  Home.mismatch_counts
    [ {| Home.time := "2024-01-01 10:00:00";
         Home.results := Home.detect Home.medicine_names ["Parasetamol"] |} ]
    = [("Mismatch", 0); ("Correct", 1)] /\
  ~ (exists label : string -> string,
        forall med,
          Home.Mismatch (Home.check Home.medicine_names med) =
          label (App.status_of
                   (Home.Match_Score (Home.check Home.medicine_names med)))).
Proof.
  assert (H1 : Home.check Home.medicine_names "Parasetamol" =
    {| Home.Entered := "Parasetamol"; Home.Closest_Match := Some "Paracetamol";
       Home.Match_Score := (1000 # 11)%Q; Home.Mismatch := Home.NO |})
    by (vm_compute; reflexivity).
  assert (H2 : Home.check Home.medicine_names "Parasitamol" =
    {| Home.Entered := "Parasitamol"; Home.Closest_Match := Some "Paracetamol";
       Home.Match_Score := (900 # 11)%Q; Home.Mismatch := Home.YES |})
    by (vm_compute; reflexivity).
  repeat split; try assumption; try reflexivity.
  intros (label & Hl).
  pose proof (Hl "Parasetamol") as L1. pose proof (Hl "Parasitamol") as L2.
  rewrite H1 in L1. rewrite H2 in L2. cbn in L1, L2.
  assert (Home.NO = Home.YES) by congruence. discriminate.
Qed.

(** C4.  When there is no reference name, every entry has the result of
    the sentinel: in app.py the dash as closest match, the score 0 and the
    status Mismatch; in Home.py no closest match (None), the score 0 and the
    mismatch flag Yes. *)
Theorem empty_reference_no_match :
  (forall medicine_name entered_list,
      Pandas.dropna medicine_name = [] ->
      App.detect medicine_name entered_list =
      Some (map (fun med => {| App.Entered := med;
                               App.Closest_Match := App.NO_MATCH;
                               App.Match_Score := 0%Q;
                               App.Status := App.MISMATCH |}) entered_list)) /\
  (forall medicines_list,
      Home.detect [] medicines_list =
      map (fun med => {| Home.Entered := med;
                         Home.Closest_Match := None;
                         Home.Match_Score := 0%Q;
                         Home.Mismatch := Home.YES |}) medicines_list).
Proof.
  split.
  - intros col entered Hcol. unfold App.detect, App.display_names.
    rewrite Hcol. cbn [map App.normalize_series].
    induction entered as [|med rest IH]; [reflexivity|].
    cbn [App.match_each map]. rewrite IH. reflexivity.
  - intros meds. reflexivity.
Qed.

Lemma empty_reference_no_match_witness :
  App.detect [None; None] ["Paracetamol"; "Xyz"] =
  Some [ {| App.Entered := "Paracetamol"; App.Closest_Match := App.NO_MATCH;
            App.Match_Score := 0%Q; App.Status := App.MISMATCH |};
         {| App.Entered := "Xyz"; App.Closest_Match := App.NO_MATCH;
            App.Match_Score := 0%Q; App.Status := App.MISMATCH |} ].
Proof.
  apply (proj1 empty_reference_no_match [None; None] ["Paracetamol"; "Xyz"]).
  reflexivity.
Defined.

(** C5.  The similarity of two texts, plain or token-sorted, lies from 0 to
    100, and so does the score of every result of a detection, in app.py
    and in Home.py. *)
Theorem score_within_0_100 :
  (forall s1 s2, Spec.in_range (RapidFuzz.ratio s1 s2)) /\
  (forall s1 s2, Spec.in_range (RapidFuzz.token_sort_ratio s1 s2)) /\
  (forall medicine_name entered_list,
      exists rs,
        App.detect medicine_name entered_list = Some rs /\
        Forall (fun r => Spec.in_range (App.Match_Score r)) rs) /\
  (forall refs medicines_list,
      Forall (fun r => Spec.in_range (Home.Match_Score r))
             (Home.detect refs medicines_list)).
Proof.
  split; [exact ratio_in_range|split; [exact token_sort_ratio_in_range|split]].
  - intros col entered. apply detect_Forall. intros med r Hr.
    apply match_entry_cases in Hr.
    destruct Hr as [[_ ->]|(d & i & -> & _)]; cbn.
    + split; vm_compute; discriminate.
    + apply token_sort_ratio_in_range.
  - intros refs meds. unfold Home.detect. apply Forall_forall.
    intros r Hr. apply in_map_iff in Hr. destruct Hr as (med & <- & _).
    destruct (check_cases refs med) as [[-> _]|(c & i & -> & _)]; cbn.
    + split; vm_compute; discriminate.
    + apply ratio_in_range.
Qed.

(** C6.  A detection gives one result for every entered name, in the order
    of the entries: the entered names of the results are the entered list
    itself, so no entry is dropped and an entry that comes twice has two
    results; this in app.py, where the detection always ends, and in
    Home.py. *)
Theorem batch_one_result_per_entry :
  (forall medicine_name entered_list,
      exists rs,
        App.detect medicine_name entered_list = Some rs /\
        map App.Entered rs = entered_list /\
        List.length rs = List.length entered_list) /\
  (forall refs medicines_list,
      map Home.Entered (Home.detect refs medicines_list) = medicines_list /\
      List.length (Home.detect refs medicines_list) = List.length medicines_list).
Proof.
  split.
  - intros col entered.
    destruct (detect_total col entered) as (rs & Hrs & Hall).
    exists rs. split; [exact Hrs|]. clear Hrs.
    induction Hall as [|med r meds rs Hr _ [IH1 IH2]]; [split; reflexivity|].
    apply match_entry_cases in Hr.
    assert (App.Entered r = med)
      by (destruct Hr as [[_ ->]|(d & i & -> & _)]; reflexivity).
    cbn. split; congruence.
  - intros refs meds. unfold Home.detect. rewrite length_map. split; [|reflexivity].
    induction meds as [|med rest IH]; [reflexivity|].
    cbn [map]. rewrite IH. f_equal.
    unfold Home.check. destruct (Home.best_of refs med). reflexivity.
Qed.

(** C2, as the two scripts have it.  In app.py the score of a result is the
    token-sort ratio of the normalized entered name and the normalized
    reference name shown as closest match, and two texts whose tokens are
    reorderings of each other have the token-sort ratio 100.  In Home.py the
    score of a result is the plain ratio of the lower-cased entered name and
    the lower-cased closest match. *)
Theorem score_is_token_sort_ratio :
  (forall medicine_name entered_list,
      exists rs,
        App.detect medicine_name entered_list = Some rs /\
        Forall (fun r =>
                  (App.Closest_Match r = App.NO_MATCH /\ App.Match_Score r = 0%Q) \/
                  (In (App.Closest_Match r) (App.display_names medicine_name) /\
                   App.Match_Score r =
                   RapidFuzz.token_sort_ratio
                     (Py.lower (Py.strip (App.Entered r)))
                     (Py.lower (Py.strip (App.Closest_Match r))))) rs) /\
  (forall s1 s2,
      Permutation (Py.split s1) (Py.split s2) ->
      RapidFuzz.token_sort_ratio s1 s2 = 100%Q) /\
  (forall refs medicines_list,
      Forall (fun r =>
                (Home.Closest_Match r = None /\ Home.Match_Score r = 0%Q) \/
                (exists ref,
                    In ref refs /\ Home.Closest_Match r = Some ref /\
                    Home.Match_Score r =
                    RapidFuzz.ratio (Py.lower (Home.Entered r)) (Py.lower ref)))
             (Home.detect refs medicines_list)).
Proof.
  split; [|split].
  - intros col entered. apply detect_Forall. intros med r Hr.
    apply match_entry_cases in Hr.
    destruct Hr as [[_ ->]|(d & i & -> & Hd & _)]; cbn.
    + left. split; reflexivity.
    + right. split; [eapply nth_error_In; eassumption|reflexivity].
  - intros s1 s2 HP. unfold RapidFuzz.token_sort_ratio.
    rewrite (token_sort_of_perm _ _ HP). apply ratio_refl.
  - intros refs meds. unfold Home.detect. apply Forall_forall.
    intros r Hr. apply in_map_iff in Hr. destruct Hr as (med & <- & _).
    destruct (check_cases refs med) as [[-> _]|(c & i & -> & _ & Hb)]; cbn.
    + left. split; reflexivity.
    + right. exists c. repeat split.
      destruct Hb as (Hc & _). eapply nth_error_In; eassumption.
Qed.

Lemma score_is_token_sort_ratio_witness :
  RapidFuzz.token_sort_ratio "500mg paracetamol" "paracetamol 500mg" = 100%Q.
Proof.
  apply (proj1 (proj2 score_is_token_sort_ratio)).
  vm_compute. apply perm_swap.
Defined.

(** C2 as stated fails on Home.py: the score it gives Tamol parace against
    its closest match Paracetamol is the plain ratio 1200/23 and not the
    token-sort ratio 2200/23, and under its scoring the reordered texts
    500mg paracetamol and paracetamol 500mg have 1100/17 and not 100. *)
Lemma home_score_is_not_token_sort :
  Home.check Home.medicine_names "Tamol parace" =
    {| Home.Entered := "Tamol parace"; Home.Closest_Match := Some "Paracetamol";
       Home.Match_Score := (1200 # 23)%Q; Home.Mismatch := Home.YES |} /\
  RapidFuzz.token_sort_ratio (Py.lower "Tamol parace") (Py.lower "Paracetamol")
    = (2200 # 23)%Q /\
  Permutation (Py.split "500mg paracetamol") (Py.split "paracetamol 500mg") /\
  Home.check ["Paracetamol 500mg"] "500mg paracetamol" =
    {| Home.Entered := "500mg paracetamol";
       Home.Closest_Match := Some "Paracetamol 500mg";
       Home.Match_Score := (1100 # 17)%Q; Home.Mismatch := Home.YES |}.
Proof.
  repeat split; try (vm_compute; reflexivity).
  vm_compute. apply perm_swap.
Qed.

(** C3, as the two scripts have it.  In app.py, for every entry and every
    non-empty list of reference names, the closest match is the reference
    name of the highest token-sort ratio, the first of them in the order of
    the list when several have it.  In Home.py the same holds, for the plain
    ratio, whenever some reference name has a ratio above 0 with the entry.
    Such a selection is unique. *)
Theorem best_match_is_first_highest :
  (forall medicine_name med,
      App.display_names medicine_name <> [] ->
      exists d i,
        let score := RapidFuzz.token_sort_ratio (Py.lower (Py.strip med)) in
        App.match_entry (App.display_names medicine_name)
          (App.normalize_series (App.display_names medicine_name)) med =
        Some {| App.Entered := med;
                App.Closest_Match := d;
                App.Match_Score := score (Py.lower (Py.strip d));
                App.Status := App.status_of (score (Py.lower (Py.strip d))) |} /\
        nth_error (App.display_names medicine_name) i = Some d /\
        Spec.first_best score
          (App.normalize_series (App.display_names medicine_name)) i
          (Py.lower (Py.strip d))) /\
  (forall refs med,
      (exists ref, In ref refs /\
                   (0 < RapidFuzz.ratio (Py.lower med) (Py.lower ref))%Q) ->
      exists c i,
        let score := fun ref => RapidFuzz.ratio (Py.lower med) (Py.lower ref) in
        Home.Closest_Match (Home.check refs med) = Some c /\
        Home.Match_Score (Home.check refs med) = score c /\
        Spec.first_best score refs i c) /\
  (forall score l i j c d,
      Spec.first_best score l i c -> Spec.first_best score l j d ->
      i = j /\ c = d).
Proof.
  split; [|split].
  - intros col med Hne. apply match_entry_best, Hne.
  - intros refs med (ref & Hin & Hpos).
    destruct (check_cases refs med) as [[_ Hz]|(c & i & -> & _ & Hb)].
    + specialize (Hz ref Hin). cbv beta in Hz. lra.
    + exists c, i. cbn. repeat split; apply Hb.
  - exact first_best_unique.
Qed.

Lemma best_match_is_first_highest_witness :
  exists c i,
    Home.Closest_Match (Home.check ["Ibuprofen"; "Paracetamol"; "paracetamol"]
                                   "Parasetamol") = Some c /\
    Home.Match_Score (Home.check ["Ibuprofen"; "Paracetamol"; "paracetamol"]
                                 "Parasetamol") =
    RapidFuzz.ratio (Py.lower "Parasetamol") (Py.lower c) /\
    Spec.first_best
      (fun ref => RapidFuzz.ratio (Py.lower "Parasetamol") (Py.lower ref))
      ["Ibuprofen"; "Paracetamol"; "paracetamol"] i c.
Proof.
  apply (proj1 (proj2 best_match_is_first_highest)
               ["Ibuprofen"; "Paracetamol"; "paracetamol"] "Parasetamol").
  exists "Paracetamol". split; [right; left; reflexivity|].
  vm_compute. reflexivity.
Defined.

(** C3 as stated fails on Home.py: its reference list is not empty, the
    entry Www has the ratio 0 with every name of it, and the closest match
    is None, no entry of the list. *)
Lemma home_selects_no_entry :
  Home.medicine_names <> [] /\
  Home.Closest_Match (Home.check Home.medicine_names "Www") = None /\
  ~ (exists c i,
        Home.Closest_Match (Home.check Home.medicine_names "Www") = Some c /\
        Spec.first_best
          (fun ref => RapidFuzz.ratio (Py.lower "Www") (Py.lower ref))
          Home.medicine_names i c).
Proof.
  split; [discriminate|]. split; [vm_compute; reflexivity|].
  intros (c & i & H & _). vm_compute in H. discriminate.
Qed.

(* ================================================================= *)
(** * The search pages *)

Lemma key_le_total (x y : string * Q) :
  Home.key_le x y = true \/ Home.key_le y x = true.
Proof.
  unfold Home.key_le. rewrite !Qle_bool_iff.
  destruct (Qlt_le_dec (snd x) (snd y)); [right|left]; lra.
Qed.

Lemma key_le_trans (x y z : string * Q) :
  Home.key_le x y = true -> Home.key_le y z = true -> Home.key_le x z = true.
Proof. unfold Home.key_le. rewrite !Qle_bool_iff. lra. Qed.

Lemma key_le_both (v : Q) (m : string * Q) :
  Home.key_le (EmptyString, v) m && Home.key_le m (EmptyString, v)
  = Qeq_bool (snd m) v.
Proof.
  unfold Home.key_le. cbn [snd].
  destruct (Qeq_bool (snd m) v) eqn:E.
  - apply Qeq_bool_iff in E. apply andb_true_iff.
    rewrite !Qle_bool_iff. lra.
  - apply Qeq_bool_neq in E. apply andb_false_iff.
    destruct (Qle_bool (- v) (- snd m)) eqn:E1; [|left; reflexivity].
    destruct (Qle_bool (- snd m) (- v)) eqn:E2; [|right; reflexivity].
    apply Qle_bool_iff in E1, E2. exfalso. apply E. lra.
Qed.

Lemma StronglySorted_impl {A : Type} (R R' : A -> A -> Prop) (l : list A) :
  (forall x y, R x y -> R' x y) -> StronglySorted R l -> StronglySorted R' l.
Proof.
  intros HR. induction 1 as [|a l Hs IH Ha]; constructor; [exact IH|].
  eapply Forall_impl; [|exact Ha]. intros; apply HR; assumption.
Qed.

Lemma home_search_lines (refs : list string) (query : string) :
  query <> EmptyString ->
  Home.lines_of (Home.search refs query) =
  Py.sorted Home.key_le (Home.matches refs query).
Proof.
  intro Hq. unfold Home.search.
  destruct query; [congruence|]. cbn [Py.truthy].
  destruct (Home.matches refs (String a query)); reflexivity.
Qed.

Lemma contains_each_plain (query : string) (l : list string) :
  App.plain query = true ->
  App.contains_each query l =
  Some (map (fun name => App.find (Py.lower query) (Py.lower name)) l).
Proof.
  intro Hp. induction l as [|s r IH]; [reflexivity|].
  cbn [App.contains_each map]. unfold App.str_contains at 1.
  rewrite Hp, IH. reflexivity.
Qed.

Lemma is_prefix_spec (p s : string) :
  App.is_prefix p s = true <-> exists post, s = (p ++ post)%string.
Proof.
  revert s. induction p as [|a p IH]; intro s.
  - split; [intros _; exists s; reflexivity|reflexivity].
  - destruct s as [|b s]; cbn [App.is_prefix].
    + split; [discriminate|]. intros (post & H). discriminate.
    + rewrite andb_true_iff, IH. split.
      * intros (Hab & post & ->). apply Ascii.eqb_eq in Hab. subst b.
        exists post. reflexivity.
      * intros (post & H). cbn in H. inversion H; subst.
        split; [apply Ascii.eqb_refl|exists post; reflexivity].
Qed.

(** The search finds a text exactly in the texts that contain it. *)
Lemma find_spec (p s : string) :
  App.find p s = true <-> Spec.contains s p.
Proof.
  unfold Spec.contains. induction s as [|b s IH].
  - cbn [App.find]. rewrite orb_false_r, is_prefix_spec. split.
    + intros (post & H). exists EmptyString, post. exact H.
    + intros (pre & post & H). destruct pre; [|discriminate].
      exists post. exact H.
  - cbn [App.find]. rewrite orb_true_iff, is_prefix_spec, IH. split.
    + intros [(post & H)|(pre & post & H)].
      * exists EmptyString, post. exact H.
      * exists (String b pre), post. cbn. congruence.
    + intros (pre & post & H). destruct pre as [|c pre].
      * left. exists post. exact H.
      * right. cbn in H. inversion H; subst. exists pre, post. reflexivity.
Qed.

Lemma getitem_rows_where (mask : list bool) (df : Pandas.DataFrame)
      (name : string) (s : Pandas.Series) :
  Pandas.getitem df name = Some s ->
  Pandas.getitem (Pandas.rows_where mask df) name = Some (Pandas.select mask s).
Proof.
  unfold Pandas.getitem, Pandas.rows_where. intro H.
  assert (Hf : forall l : Pandas.DataFrame,
             filter (fun c : string * Pandas.Series => String.eqb (fst c) name)
                    (map (fun c : string * Pandas.Series =>
                            (fst c, Pandas.select mask (snd c))) l) =
             map (fun c : string * Pandas.Series =>
                    (fst c, Pandas.select mask (snd c)))
                 (filter (fun c : string * Pandas.Series =>
                            String.eqb (fst c) name) l)).
  { induction l as [|d l IH]; [reflexivity|].
    cbn [map filter fst]. rewrite IH.
    destruct (String.eqb (fst d) name); cbn [map]; reflexivity. }
  rewrite Hf.
  destruct (filter (fun c => String.eqb (fst c) name) df) as [|c [|c' t]];
    try discriminate.
  inversion H; subst. reflexivity.
Qed.

(** The mask of the search of app.py over a column without missing
    names. *)
Lemma search_mask (query : string) (names : Pandas.Series) :
  Forall (fun cell => cell <> None) names ->
  Forall2 (fun cell shown =>
             shown = true <->
             exists name, cell = Some name /\
                          Spec.contains (Py.lower name) (Py.lower query))
          names
          (map (fun name => App.find (Py.lower query) (Py.lower name))
               (Pandas.astype_str names)).
Proof.
  induction 1 as [|cell names Hc _ IH]; [constructor|].
  cbn [Pandas.astype_str map]. constructor; [|exact IH].
  destruct cell as [name|]; [|congruence].
  rewrite find_spec. split.
  - intro H. exists name. split; [reflexivity|exact H].
  - intros (name' & Hn & H). inversion Hn; subst. exact H.
Qed.

(** C7, as the two scripts have it.  In Home.py the search for a non-empty
    query shows exactly the reference names whose plain ratio with the query
    is above 60, each as often as the reference list has it, in descending
    order of the score, the names of one score in the order of the reference
    list.  The search page of app.py has no score: for the empty query it
    shows the first 25 rows of the reference table, and for a non-empty
    query of letters, digits and spaces, over a reference whose names are
    all there and are texts of ASCII characters, it shows exactly the rows
    whose name contains the query, whatever the case, in the order of the
    table. *)
Theorem search_by_ratio_above_60 :
  (forall refs query,
      query <> EmptyString ->
      Permutation (Home.lines_of (Home.search refs query))
                  (Home.matches refs query) /\
      (forall ref s,
          In (ref, s) (Home.lines_of (Home.search refs query)) <->
          In ref refs /\
          s = RapidFuzz.ratio (Py.lower query) (Py.lower ref) /\ (60 < s)%Q) /\
      Spec.descending (Home.lines_of (Home.search refs query)) /\
      (forall v,
          Spec.with_score v (Home.lines_of (Home.search refs query)) =
          Spec.with_score v (Home.matches refs query))) /\
  (forall w, App.search w EmptyString =
             Some (Pandas.head 25 (App.get_reference_df w))) /\
  (forall w query names,
      query <> EmptyString ->
      App.plain query = true ->
      Pandas.getitem (App.get_reference_df w) "Medicine Name" = Some names ->
      Forall (fun cell => exists name, cell = Some name /\
                                       Py.is_ascii name = true) names ->
      exists mask,
        App.search w query =
          Some (Pandas.rows_where mask (App.get_reference_df w)) /\
        Pandas.getitem (Pandas.rows_where mask (App.get_reference_df w))
                       "Medicine Name" = Some (Pandas.select mask names) /\
        Forall2 (fun cell shown =>
                   shown = true <->
                   exists name, cell = Some name /\
                                Spec.contains (Py.lower name) (Py.lower query))
                names mask).
Proof.
  split; [|split].
  - intros refs query Hq. rewrite (home_search_lines refs query Hq).
    pose proof (sorted_perm Home.key_le (Home.matches refs query)) as HP.
    split; [exact HP|]. split; [|split].
    + intros ref s. split.
      * intro Hin. apply (Permutation_in _ HP) in Hin.
        unfold Home.matches in Hin. apply filter_In in Hin.
        destruct Hin as (Hin & Hs). apply in_map_iff in Hin.
        destruct Hin as (ref' & Heq & Hin'). inversion Heq; subst.
        cbn [snd] in Hs. apply Qltb_lt in Hs. auto.
      * intros (Hin & -> & Hs).
        apply (Permutation_in _ (Permutation_sym HP)).
        unfold Home.matches. apply filter_In. split.
        -- apply in_map_iff. exists ref. split; [reflexivity|exact Hin].
        -- cbn [snd]. apply Qltb_lt. exact Hs.
    + unfold Spec.descending.
      eapply StronglySorted_impl;
        [|apply (sorted_sorted Home.key_le key_le_total key_le_trans)].
      intros x y H. cbv beta in H. unfold Home.key_le in H.
      apply Qle_bool_iff in H. lra.
    + intro v. unfold Spec.with_score.
      pose proof (sorted_stable Home.key_le key_le_total key_le_trans
                    (EmptyString, v) (Home.matches refs query)) as Hst.
      cbv zeta in Hst.
      rewrite (filter_ext _ _ (key_le_both v)) in Hst.
      rewrite (filter_ext _ _ (key_le_both v) (Home.matches refs query)) in Hst.
      exact Hst.
  - reflexivity.
  - intros w query names Hq Hp Hn Hfull.
    exists (map (fun name => App.find (Py.lower query) (Py.lower name))
                (Pandas.astype_str names)).
    split; [|split].
    + unfold App.search. destruct query; [congruence|]. cbn [Py.truthy].
      rewrite Hn. cbn [Pandas.bind].
      rewrite (contains_each_plain _ _ Hp). reflexivity.
    + apply getitem_rows_where, Hn.
    + apply search_mask. eapply Forall_impl; [|exact Hfull].
      intros cell (name & -> & _). discriminate.
Qed.

Lemma search_by_ratio_above_60_witness :
  Home.lines_of (Home.search ["Cetirizine"; "Omeprazole"; "omeprazole"]
                             "omeprazol") =
  [("Omeprazole", (1800 # 19)%Q); ("omeprazole", (1800 # 19)%Q)] /\
  Spec.descending
    (Home.lines_of (Home.search ["Cetirizine"; "Omeprazole"; "omeprazole"]
                                "omeprazol")) /\
  exists mask,
    App.search App.initial "cip" =
      Some (Pandas.rows_where mask (App.get_reference_df App.initial)) /\
    Pandas.getitem (Pandas.rows_where mask (App.get_reference_df App.initial))
                   "Medicine Name" =
      Some (Pandas.select mask
              (map Some (map (fun r => nth 0 r EmptyString) App.default_rows))) /\
    Forall2 (fun cell shown =>
               shown = true <->
               exists name, cell = Some name /\
                            Spec.contains (Py.lower name) (Py.lower "cip"))
            (map Some (map (fun r => nth 0 r EmptyString) App.default_rows))
            mask.
Proof.
  split; [vm_compute; reflexivity|]. split.
  - apply (proj1 search_by_ratio_above_60
                 ["Cetirizine"; "Omeprazole"; "omeprazole"] "omeprazol").
    discriminate.
  - apply (proj2 (proj2 search_by_ratio_above_60) App.initial "cip").
    + discriminate.
    + reflexivity.
    + reflexivity.
    + repeat constructor; eexists; split; reflexivity.
Defined.

(** C7 as stated fails on app.py: in a new session the search for para
    shows the row of Paracetamol, whose plain ratio with the query, 160/3, is
    not above 60, and the search for amoxicilin shows no row, although the
    plain ratio of Amoxicillin with it, 2000/21, is above 60. *)
Lemma app_search_is_not_by_ratio :
  App.search App.initial "para" =
    Some [ ("Medicine Name", [Some "Paracetamol"]); ("Price", [Some "15"]);
           ("Company", [Some "Cipla"]); ("Category", [Some "Allopathy"]);
           ("Packaging", [Some "Strip of 10 tablets"]) ] /\
  RapidFuzz.ratio (Py.lower "para") (Py.lower "Paracetamol") = (160 # 3)%Q /\
  ~ (60 < 160 # 3)%Q /\
  App.search App.initial "amoxicilin" =
    Some [ ("Medicine Name", []); ("Price", []); ("Company", []);
           ("Category", []); ("Packaging", []) ] /\
  RapidFuzz.ratio (Py.lower "amoxicilin") (Py.lower "Amoxicillin")
    = (2000 # 21)%Q /\
  (60 < 2000 # 21)%Q.
Proof.
  repeat split; try (vm_compute; reflexivity).
  vm_compute. discriminate.
Qed.

(* ================================================================= *)
(** * The runs of the Detector page *)

Lemma set_reference_keeps (inp : App.Input) (w : App.World) :
  Spec.well_formed inp ->
  exists w1,
    App.set_reference inp w = Some w1 /\
    App.results w1 = App.results w /\
    App.history_csv w1 = App.history_csv w.
Proof.
  unfold Spec.well_formed, App.set_reference. intro Hwf.
  destruct (App.use_as_reference inp); [|eauto].
  destruct (App.df_uploaded inp) as [df|]; [|eauto].
  destruct (App.selected_col inp) as [col|]; [|eauto].
  destruct (negb (Pandas.has_column "Medicine Name"
                    (Pandas.rename col "Medicine Name" df))).
  - destruct (Pandas.getitem df col); [|congruence].
    cbn. eauto.
  - cbn. eauto.
Qed.

(** The reference that a run sets is the one the same run sets again. *)
Lemma set_reference_fixed (inp : App.Input) (w wr w' : App.World) :
  App.set_reference inp w = Some wr ->
  App.reference_df w' = App.reference_df wr ->
  App.set_reference inp w' = Some w'.
Proof.
  unfold App.set_reference. intros H Href.
  destruct (App.use_as_reference inp); [|reflexivity].
  destruct (App.df_uploaded inp) as [df|]; [|reflexivity].
  destruct (App.selected_col inp) as [col|]; [|reflexivity].
  destruct (if negb (Pandas.has_column "Medicine Name"
                       (Pandas.rename col "Medicine Name" df))
            then _ else _) as [ref_df'|]; [|discriminate].
  cbn in *. inversion H; subst. cbn in Href. rewrite <- Href.
  destruct w'; reflexivity.
Qed.

(** C8.  When the entered list is empty after cleaning, a run of the
    Detector page of app.py shows the warning that asks for a name and does
    nothing to the results and to the history: no entry is matched, the
    results of the session stay, and the history file gets no row.  Unless
    the upload was ticked as the reference, which the run takes over before
    it looks at the entries, the state is as it was. *)
Theorem nothing_entered_is_warned (inp : App.Input) (now : string) (w : App.World) :
  Spec.well_formed inp ->
  App.entered_list inp = Some [] ->
  exists w1,
    App.run inp now w = Some (w1, [App.Warning App.NOTHING_ENTERED]) /\
    App.results w1 = App.results w /\
    App.history_csv w1 = App.history_csv w /\
    (App.use_as_reference inp = false -> w1 = w).
Proof.
  intros Hwf He. unfold App.run. rewrite He. cbn [Pandas.bind].
  destruct (set_reference_keeps inp w Hwf) as (w1 & Hset & Hr & Hh).
  exists w1. rewrite Hset. cbn [Pandas.bind].
  repeat split; try assumption.
  intro Hno. unfold App.set_reference in Hset. rewrite Hno in Hset.
  congruence.
Qed.

Lemma nothing_entered_is_warned_witness :
  exists w1,
    App.run {| App.df_uploaded := None; App.selected_col := None;
               App.use_as_reference := false; App.user_input := " , ," |}
            "2024-01-01 10:00:00"
            {| App.results := []; App.reference_df := None;
               App.history_csv :=
                 [ {| App.h_Time := "2023-12-31 09:00:00";
                      App.h_Entered := "Ibuprofen";
                      App.h_Closest_Match := "Ibuprofen";
                      App.h_Match_Score := 100%Q;
                      App.h_Status := App.CORRECT |} ] |}
    = Some (w1, [App.Warning App.NOTHING_ENTERED]) /\
    App.results w1 = [] /\
    App.history_csv w1 =
      [ {| App.h_Time := "2023-12-31 09:00:00";
           App.h_Entered := "Ibuprofen";
           App.h_Closest_Match := "Ibuprofen";
           App.h_Match_Score := 100%Q;
           App.h_Status := App.CORRECT |} ] /\
    (false = false ->
     w1 = {| App.results := []; App.reference_df := None;
             App.history_csv :=
               [ {| App.h_Time := "2023-12-31 09:00:00";
                    App.h_Entered := "Ibuprofen";
                    App.h_Closest_Match := "Ibuprofen";
                    App.h_Match_Score := 100%Q;
                    App.h_Status := App.CORRECT |} ] |}).
Proof.
  apply (nothing_entered_is_warned
           {| App.df_uploaded := None; App.selected_col := None;
              App.use_as_reference := false; App.user_input := " , ," |}).
  - exact I.
  - reflexivity.
Defined.

(** C9.  A detection is deterministic.  In app.py, the run of a batch after
    a run of the same batch, whatever the two times and whatever the history
    has become, ends as the first did, with the same messages, the same
    reference and the same sequence of results.  In Home.py the results of a
    batch are the same whatever the time and the history of the session. *)
Theorem batch_is_deterministic :
  (forall inp t1 t2 w w1 shown,
      App.run inp t1 w = Some (w1, shown) ->
      exists w2,
        App.run inp t2 w1 = Some (w2, shown) /\
        App.results w2 = App.results w1 /\
        App.reference_df w2 = App.reference_df w1) /\
  (forall refs medicines_list t1 t2 h1 h2,
      option_map fst (Home.run refs medicines_list t1 h1) =
      option_map fst (Home.run refs medicines_list t2 h2)).
Proof.
  split; [|intros; unfold Home.run;
           destruct (Home.detect refs medicines_list); reflexivity].
  intros inp t1 t2 w w1 shown H. unfold App.run in *.
  destruct (App.entered_list inp) as [entered|]; [|discriminate].
  cbn [Pandas.bind] in *.
  destruct (App.set_reference inp w) as [wr|] eqn:Hset; [|discriminate].
  cbn [Pandas.bind] in *.
  destruct entered as [|e rest].
  - inversion H; subst.
    rewrite (set_reference_fixed inp w w1 w1 Hset eq_refl).
    cbn [Pandas.bind]. eauto.
  - destruct (negb (Pandas.has_column "Medicine Name" (App.get_reference_df wr)))
      eqn:Hcol.
    + inversion H; subst.
      rewrite (set_reference_fixed inp w w1 w1 Hset eq_refl).
      cbn [Pandas.bind]. rewrite Hcol. eauto.
    + destruct (Pandas.getitem (App.get_reference_df wr) "Medicine Name")
        as [names|] eqn:Hn; [|discriminate].
      cbn [Pandas.bind] in *.
      destruct (App.detect names (e :: rest)) as [rs|] eqn:Hd; [|discriminate].
      cbn [Pandas.bind] in *. inversion H; subst. clear H.
      match goal with
      | |- context [App.set_reference inp ?w1] =>
          rewrite (set_reference_fixed inp w wr w1 Hset eq_refl)
      end.
      cbn [Pandas.bind].
      unfold App.get_reference_df in *. cbn [App.reference_df].
      rewrite Hcol, Hn. cbn [Pandas.bind]. rewrite Hd. cbn [Pandas.bind].
      eexists. split; [reflexivity|]. split; reflexivity.
Qed.

Lemma batch_is_deterministic_witness :
  exists w2,
    App.run {| App.df_uploaded := None; App.selected_col := None;
               App.use_as_reference := false;
               App.user_input := "Parasetamol, Ibuprofen" |}
            "2024-01-01 10:05:00"
            {| App.results :=
                 [ {| App.Entered := "Parasetamol";
                      App.Closest_Match := "Paracetamol";
                      App.Match_Score := (1000 # 11)%Q;
                      App.Status := App.POSSIBLE_MISMATCH |};
                   {| App.Entered := "Ibuprofen";
                      App.Closest_Match := "Ibuprofen";
                      App.Match_Score := 100%Q;
                      App.Status := App.CORRECT |} ];
               App.reference_df := None;
               App.history_csv :=
                 [ {| App.h_Time := "2024-01-01 10:00:00";
                      App.h_Entered := "Parasetamol";
                      App.h_Closest_Match := "Paracetamol";
                      App.h_Match_Score := (1000 # 11)%Q;
                      App.h_Status := App.POSSIBLE_MISMATCH |};
                   {| App.h_Time := "2024-01-01 10:00:00";
                      App.h_Entered := "Ibuprofen";
                      App.h_Closest_Match := "Ibuprofen";
                      App.h_Match_Score := 100%Q;
                      App.h_Status := App.CORRECT |} ] |}
    = Some (w2, []) /\
    App.results w2 =
      [ {| App.Entered := "Parasetamol";
           App.Closest_Match := "Paracetamol";
           App.Match_Score := (1000 # 11)%Q;
           App.Status := App.POSSIBLE_MISMATCH |};
        {| App.Entered := "Ibuprofen";
           App.Closest_Match := "Ibuprofen";
           App.Match_Score := 100%Q;
           App.Status := App.CORRECT |} ] /\
    App.reference_df w2 = None.
Proof.
  apply (proj1 batch_is_deterministic
               {| App.df_uploaded := None; App.selected_col := None;
                  App.use_as_reference := false;
                  App.user_input := "Parasetamol, Ibuprofen" |}
               "2024-01-01 10:00:00" "2024-01-01 10:05:00" App.initial).
  vm_compute. reflexivity.
Defined.

(** C10.  In Home.py an entered name whose ratio with every reference name
    is 0 has the result of no closest match (None), the score 0 and the
    mismatch flag Yes, also when the reference list is not empty: so it is
    for the entry Qqq against the list of the script. *)
Theorem home_none_for_nonempty_reference :
  (forall refs med,
      (forall ref, In ref refs ->
                   (RapidFuzz.ratio (Py.lower med) (Py.lower ref) == 0)%Q) ->
      Home.check refs med =
      {| Home.Entered := med; Home.Closest_Match := None;
         Home.Match_Score := 0%Q; Home.Mismatch := Home.YES |}) /\
  Home.medicine_names <> [] /\
  Home.detect Home.medicine_names ["Qqq"] =
  [ {| Home.Entered := "Qqq"; Home.Closest_Match := None;
       Home.Match_Score := 0%Q; Home.Mismatch := Home.YES |} ].
Proof.
  split; [|split; [discriminate|vm_compute; reflexivity]].
  intros refs med Hz.
  destruct (check_cases refs med) as [[H _]|(c & i & _ & Hpos & Hb)];
    [exact H|].
  destruct Hb as (Hc & _). apply nth_error_In in Hc.
  specialize (Hz c Hc). cbv beta in Hpos. lra.
Qed.

Lemma home_none_for_nonempty_reference_witness :
  Home.check ["Paracetamol"; "Ibuprofen"] "Qqq" =
  {| Home.Entered := "Qqq"; Home.Closest_Match := None;
     Home.Match_Score := 0%Q; Home.Mismatch := Home.YES |}.
Proof.
  apply (proj1 home_none_for_nonempty_reference ["Paracetamol"; "Ibuprofen"] "Qqq").
  intros ref [<-|[<-|[]]]; vm_compute; reflexivity.
Defined.

(* ================================================================= *)
(** * Further properties of the scripts *)

(** ** Stripping and lower-casing *)

Lemma lower_char_isspace (c : ascii) :
  Py.isspace (Py.lower_char c) = Py.isspace c.
Proof. destruct c as [[] [] [] [] [] [] [] []]; reflexivity. Qed.

Lemma upper_char_isspace (c : ascii) :
  Py.isspace (Py.upper_char c) = Py.isspace c.
Proof. destruct c as [[] [] [] [] [] [] [] []]; reflexivity. Qed.

Lemma lower_char_idem (c : ascii) :
  Py.lower_char (Py.lower_char c) = Py.lower_char c.
Proof. destruct c as [[] [] [] [] [] [] [] []]; reflexivity. Qed.

Lemma upper_char_idem (c : ascii) :
  Py.upper_char (Py.upper_char c) = Py.upper_char c.
Proof. destruct c as [[] [] [] [] [] [] [] []]; reflexivity. Qed.

Lemma lower_upper_char (c : ascii) :
  Py.lower_char (Py.upper_char c) = Py.lower_char c.
Proof. destruct c as [[] [] [] [] [] [] [] []]; reflexivity. Qed.

Lemma lower_idem (s : string) : Py.lower (Py.lower s) = Py.lower s.
Proof.
  induction s as [|c r IH]; [reflexivity|].
  cbn [Py.lower]. rewrite lower_char_idem, IH. reflexivity.
Qed.

Lemma lower_capitalize (s : string) : Py.lower (Py.capitalize s) = Py.lower s.
Proof.
  destruct s as [|c r]; [reflexivity|].
  cbn [Py.capitalize Py.lower]. rewrite lower_upper_char, lower_idem.
  reflexivity.
Qed.

Lemma truthy_lower (s : string) : Py.truthy (Py.lower s) = Py.truthy s.
Proof. destruct s; reflexivity. Qed.

Lemma lstrip_lower (s : string) : Py.lstrip (Py.lower s) = Py.lower (Py.lstrip s).
Proof.
  induction s as [|c r IH]; [reflexivity|].
  cbn [Py.lower Py.lstrip]. rewrite lower_char_isspace.
  destruct (Py.isspace c); [exact IH|reflexivity].
Qed.

Lemma rstrip_lower (s : string) : Py.rstrip (Py.lower s) = Py.lower (Py.rstrip s).
Proof.
  induction s as [|c r IH]; [reflexivity|].
  cbn [Py.lower Py.rstrip]. rewrite lower_char_isspace, IH, truthy_lower.
  destruct (Py.isspace c && negb (Py.truthy (Py.rstrip r))); reflexivity.
Qed.

Lemma strip_lower (s : string) : Py.strip (Py.lower s) = Py.lower (Py.strip s).
Proof. unfold Py.strip. rewrite lstrip_lower, rstrip_lower. reflexivity. Qed.

(** What is left of a text stripped on the left starts with no
    whitespace. *)
Lemma lstrip_head (s : string) :
  Py.lstrip s = EmptyString \/
  exists c r, Py.lstrip s = String c r /\ Py.isspace c = false.
Proof.
  induction s as [|c r IH]; [left; reflexivity|].
  cbn [Py.lstrip]. destruct (Py.isspace c) eqn:E; [exact IH|].
  right. exists c, r. split; [reflexivity|exact E].
Qed.

Lemma rstrip_idem (s : string) : Py.rstrip (Py.rstrip s) = Py.rstrip s.
Proof.
  induction s as [|c r IH]; [reflexivity|].
  cbn [Py.rstrip].
  destruct (Py.isspace c && negb (Py.truthy (Py.rstrip r))) eqn:E;
    [reflexivity|].
  cbn [Py.rstrip]. rewrite IH, E. reflexivity.
Qed.

Lemma strip_idem (s : string) : Py.strip (Py.strip s) = Py.strip s.
Proof.
  unfold Py.strip.
  destruct (lstrip_head s) as [->|(c & r & -> & Hc)]; [reflexivity|].
  cbn [Py.rstrip]. rewrite Hc. cbn [andb Py.lstrip]. rewrite Hc.
  cbn [Py.rstrip]. rewrite Hc, rstrip_idem. reflexivity.
Qed.

Lemma strip_trimmed (s : string) :
  Py.truthy (Py.strip s) = true -> Spec.trimmed (Py.strip s).
Proof.
  intro H. split; [|apply strip_idem].
  intro E. rewrite E in H. discriminate.
Qed.

Lemma truthy_trimmed (s : string) :
  Py.truthy s = true -> Py.strip s = s -> Spec.trimmed s.
Proof. intros H E. split; [intros ->; discriminate|exact E]. Qed.

(** ** The guess of the column of the names *)

Lemma guess_loop_found (cols : list Pandas.Label) (i k : nat) (fb : Z)
      (c : string) :
  nth_error cols k = Some (Pandas.Text c) ->
  App.is_candidate c = true ->
  (forall j l, j < k -> nth_error cols j = Some l -> Spec.text_unknown l) ->
  App.guess_loop i cols fb = Some (Z.of_nat (i + k)).
Proof.
  revert i k. induction cols as [|l rest IH]; intros i k Hn Hc Hb.
  - destruct k; discriminate.
  - destruct k as [|k].
    + cbn in Hn. inversion Hn; subst. cbn [App.guess_loop]. rewrite Hc.
      rewrite Nat.add_0_r. reflexivity.
    + destruct (Hb 0 l (Nat.lt_0_succ k) eq_refl) as (c0 & -> & Hc0).
      cbn [App.guess_loop]. rewrite Hc0.
      rewrite (IH (S i) k Hn Hc).
      * f_equal. lia.
      * intros j l' Hj Hn'. apply (Hb (S j) l'); [lia|exact Hn'].
Qed.

Lemma guess_loop_raises (cols : list Pandas.Label) (i k : nat) (fb : Z) :
  nth_error cols k = Some Pandas.NotText ->
  (forall j l, j < k -> nth_error cols j = Some l -> Spec.text_unknown l) ->
  App.guess_loop i cols fb = None.
Proof.
  revert i k. induction cols as [|l rest IH]; intros i k Hn Hb.
  - destruct k; discriminate.
  - destruct k as [|k].
    + cbn in Hn. inversion Hn; subst. reflexivity.
    + destruct (Hb 0 l (Nat.lt_0_succ k) eq_refl) as (c0 & -> & Hc0).
      cbn [App.guess_loop]. rewrite Hc0. apply (IH (S i) k Hn).
      intros j l' Hj Hn'. apply (Hb (S j) l'); [lia|exact Hn'].
Qed.

Lemma guess_loop_unknown (cols : list Pandas.Label) (i : nat) (fb : Z) :
  (forall l, In l cols -> Spec.text_unknown l) ->
  App.guess_loop i cols fb = Some fb.
Proof.
  revert i. induction cols as [|l rest IH]; intros i H; [reflexivity|].
  destruct (H l (or_introl eq_refl)) as (c0 & -> & Hc0).
  cbn [App.guess_loop]. rewrite Hc0. apply IH.
  intros l' Hl'. apply H. right. exact Hl'.
Qed.

Lemma guess_loop_range (cols : list Pandas.Label) (i : nat) (fb z : Z) :
  App.guess_loop i cols fb = Some z ->
  z = fb \/ (Z.of_nat i <= z < Z.of_nat (i + List.length cols))%Z.
Proof.
  revert i. induction cols as [|l rest IH]; intros i H.
  - cbn in H. left. congruence.
  - destruct l as [c|]; [|discriminate]. cbn [App.guess_loop] in H.
    destruct (App.is_candidate c).
    + inversion H; subst. right. cbn [List.length]. lia.
    + destruct (IH _ H) as [E|R]; [left; exact E|right].
      cbn [List.length]. lia.
Qed.

(** X1.  [guess_name_column] looks at the column labels in order.  When
    the labels before the first column of a known name (its text, stripped
    and lower-cased, one of the six names) are texts, it returns the index
    of that column.  When a label that is not a text comes before any
    column of a known name, it raises.  When all labels are texts and none
    is a known name it returns 0, and it returns -1 exactly for a table
    without columns.  Whenever it returns for a table with columns, the
    index the select box starts at is the index returned and is the index
    of a column. *)
Theorem guess_name_column_first_known (df : Pandas.RawFrame) :
  (App.guess_name_column df = Some (-1)%Z <-> map fst df = []) /\
  (forall k c,
      nth_error (map fst df) k = Some (Pandas.Text c) ->
      App.is_candidate c = true ->
      (forall j l, j < k -> nth_error (map fst df) j = Some l ->
                   exists c', l = Pandas.Text c' /\
                              App.is_candidate c' = false) ->
      App.guess_name_column df = Some (Z.of_nat k)) /\
  (forall k,
      nth_error (map fst df) k = Some Pandas.NotText ->
      (forall j l, j < k -> nth_error (map fst df) j = Some l ->
                   exists c', l = Pandas.Text c' /\
                              App.is_candidate c' = false) ->
      App.guess_name_column df = None /\ App.default_index df = None) /\
  (map fst df <> [] ->
   (forall l, In l (map fst df) ->
              exists c, l = Pandas.Text c /\ App.is_candidate c = false) ->
   App.guess_name_column df = Some 0%Z) /\
  (forall i,
      App.guess_name_column df = Some i ->
      map fst df <> [] ->
      App.default_index df = Some i /\
      (0 <= i < Z.of_nat (List.length (map fst df)))%Z).
Proof.
  unfold App.default_index, App.guess_name_column. cbv zeta.
  set (cols := map fst df).
  set (fb := match cols with [] => (-1)%Z | _ :: _ => 0%Z end).
  assert (Hrange : forall i, App.guess_loop 0 cols fb = Some i -> cols <> [] ->
                             (0 <= i < Z.of_nat (List.length cols))%Z).
  { intros i Hi Hne. destruct (guess_loop_range _ _ _ _ Hi) as [E|R].
    - subst i fb. destruct cols; [congruence|]. cbn [List.length]. lia.
    - cbn in R. exact R. }
  split; [|split; [|split; [|split]]].
  - split.
    + intro H. destruct cols as [|l rest] eqn:E; [reflexivity|].
      assert (Hne : l :: rest <> []) by discriminate.
      specialize (Hrange _ H Hne). lia.
    + intro E. subst fb. rewrite E. reflexivity.
  - intros k c Hn Hc Hb.
    exact (guess_loop_found cols 0 k fb c Hn Hc Hb).
  - intros k Hn Hb.
    rewrite (guess_loop_raises cols 0 k fb Hn Hb). split; reflexivity.
  - intros Hne Hall. rewrite (guess_loop_unknown cols 0 fb Hall).
    subst fb. destruct cols; [congruence|reflexivity].
  - intros i Hi Hne. rewrite Hi. cbn [Pandas.bind].
    specialize (Hrange i Hi Hne). split; [f_equal; lia|exact Hrange].
Qed.

Lemma guess_name_column_first_known_witness :
  App.guess_name_column
    [(Pandas.Text "Id", [Some "1"]);
     (Pandas.Text " Drug ", [Some "Paracetamol"]);
     (Pandas.NotText, [Some "x"])] = Some 1%Z /\
  App.guess_name_column
    [(Pandas.Text "Id", [Some "1"]); (Pandas.NotText, [Some "12"]);
     (Pandas.Text "name", [Some "x"])] = None.
Proof.
  split.
  - apply (proj1 (proj2 (guess_name_column_first_known
             [(Pandas.Text "Id", [Some "1"]);
              (Pandas.Text " Drug ", [Some "Paracetamol"]);
              (Pandas.NotText, [Some "x"])])) 1 " Drug ").
    + reflexivity.
    + reflexivity.
    + intros j l Hj Hn. destruct j as [|j]; [|lia].
      cbn in Hn. inversion Hn. exists "Id". split; reflexivity.
  - apply (proj1 (proj2 (proj2 (guess_name_column_first_known
             [(Pandas.Text "Id", [Some "1"]); (Pandas.NotText, [Some "12"]);
              (Pandas.Text "name", [Some "x"])]))) 1).
    + reflexivity.
    + intros j l Hj Hn. destruct j as [|j]; [|lia].
      cbn in Hn. inversion Hn. exists "Id". split; reflexivity.
Defined.

(** ** The entered list *)

Lemma dedupe_In (l seen : list string) (x : string) :
  In x (App.dedupe seen l) -> In x l.
Proof.
  revert seen. induction l as [|y r IH]; intros seen H; [exact H|].
  cbn [App.dedupe] in H.
  destruct (existsb (String.eqb (Py.lower y)) seen).
  - right. eapply IH, H.
  - destruct H as [<-|H]; [left; reflexivity|right; eapply IH, H].
Qed.

Lemma dedupe_not_seen (l seen : list string) (x : string) :
  In x (App.dedupe seen l) ->
  existsb (String.eqb (Py.lower x)) seen = false.
Proof.
  revert seen. induction l as [|y r IH]; intros seen H; [destruct H|].
  cbn [App.dedupe] in H.
  destruct (existsb (String.eqb (Py.lower y)) seen) eqn:E; [eapply IH, H|].
  destruct H as [<-|H]; [exact E|].
  apply IH in H. cbn [existsb] in H. apply orb_false_iff in H. apply H.
Qed.

Lemma dedupe_NoDup (l seen : list string) :
  NoDup (map Py.lower (App.dedupe seen l)).
Proof.
  revert seen. induction l as [|y r IH]; intro seen; [constructor|].
  cbn [App.dedupe].
  destruct (existsb (String.eqb (Py.lower y)) seen); [apply IH|].
  cbn [map]. constructor; [|apply IH].
  intro Hin. apply in_map_iff in Hin. destruct Hin as (z & Hz & Hin).
  apply dedupe_not_seen in Hin. cbn [existsb] in Hin.
  rewrite Hz, String.eqb_refl in Hin. discriminate.
Qed.

Lemma dedupe_covers (l seen : list string) (x : string) :
  In x l ->
  existsb (String.eqb (Py.lower x)) seen = true \/
  exists y, In y (App.dedupe seen l) /\ Py.lower y = Py.lower x.
Proof.
  revert seen. induction l as [|y r IH]; intros seen H; [destruct H|].
  cbn [App.dedupe].
  destruct (existsb (String.eqb (Py.lower y)) seen) eqn:E.
  - destruct H as [<-|H]; [left; exact E|apply IH, H].
  - destruct H as [<-|H].
    + right. exists y. split; [left; reflexivity|reflexivity].
    + destruct (IH (Py.lower y :: seen) H) as [Hs|(z & Hz & Hl)].
      * cbn [existsb] in Hs. apply orb_true_iff in Hs. destruct Hs as [Hs|Hs].
        -- apply String.eqb_eq in Hs. right. exists y.
           split; [left; reflexivity|congruence].
        -- left. exact Hs.
      * right. exists z. split; [right; exact Hz|exact Hl].
Qed.

(** The names kept depend on the names seen, not on their order. *)
Lemma dedupe_ext (l s1 s2 : list string) :
  (forall z, existsb (String.eqb z) s1 = existsb (String.eqb z) s2) ->
  App.dedupe s1 l = App.dedupe s2 l.
Proof.
  revert s1 s2. induction l as [|y r IH]; intros s1 s2 H; [reflexivity|].
  cbn [App.dedupe]. rewrite (H (Py.lower y)).
  destruct (existsb (String.eqb (Py.lower y)) s2); [apply IH, H|].
  f_equal. apply IH. intro z. cbn [existsb]. rewrite (H z). reflexivity.
Qed.

Lemma filter_idem {A : Type} (f : A -> bool) (l : list A) :
  filter f (filter f l) = filter f l.
Proof.
  induction l as [|z t IH]; [reflexivity|].
  cbn [filter]. destruct (f z) eqn:E; [|exact IH].
  cbn [filter]. rewrite E, IH. reflexivity.
Qed.

Lemma dedupe_seen_filter (l seen : list string) (k : string) :
  App.dedupe (k :: seen) l =
  filter (fun y => negb (String.eqb (Py.lower y) k)) (App.dedupe seen l).
Proof.
  revert seen. induction l as [|y r IH]; intro seen; [reflexivity|].
  cbn [App.dedupe existsb].
  destruct (String.eqb (Py.lower y) k) eqn:Ek; cbn [orb].
  - destruct (existsb (String.eqb (Py.lower y)) seen); [apply IH|].
    cbn [filter]. rewrite Ek. cbn [negb].
    apply String.eqb_eq in Ek. rewrite Ek.
    rewrite !IH, filter_idem. reflexivity.
  - destruct (existsb (String.eqb (Py.lower y)) seen); [apply IH|].
    cbn [filter]. rewrite Ek. cbn [negb]. f_equal.
    rewrite <- IH. apply dedupe_ext. intro z. cbn [existsb].
    destruct (String.eqb z (Py.lower y)), (String.eqb z k); reflexivity.
Qed.

(** X2.  The removal of the duplicates of the entered list leaves no two
    names that are equal when case is ignored, keeps a name for every name
    of the list, and keeps the first of the equal names where it was: the
    first name of a list is kept, and behind it come the names kept of the
    rest that differ from it. *)
Theorem dedupe_keeps_first_of_each (l : list string) :
  NoDup (map Py.lower (App.dedupe [] l)) /\
  (forall x, In x (App.dedupe [] l) -> In x l) /\
  (forall x, In x l ->
             exists y, In y (App.dedupe [] l) /\ Py.lower y = Py.lower x) /\
  (forall x r,
      l = x :: r ->
      App.dedupe [] l =
      x :: filter (fun y => negb (String.eqb (Py.lower y) (Py.lower x)))
                  (App.dedupe [] r)).
Proof.
  split; [apply dedupe_NoDup|]. split; [intro x; apply dedupe_In|]. split.
  - intros x Hx. destruct (dedupe_covers l [] x Hx) as [H|H];
      [discriminate|exact H].
  - intros x r ->. cbn [App.dedupe existsb]. f_equal. apply dedupe_seen_filter.
Qed.

Lemma dedupe_keeps_first_of_each_witness :
  App.dedupe [] ["Ibuprofen"; "Crocin"; "IBUPROFEN"; "crocin"; "Dolo"] =
  "Ibuprofen" ::
    filter (fun y => negb (String.eqb (Py.lower y) (Py.lower "Ibuprofen")))
           (App.dedupe [] ["Crocin"; "IBUPROFEN"; "crocin"; "Dolo"]).
Proof.
  apply (proj2 (proj2 (proj2 (dedupe_keeps_first_of_each
           ["Ibuprofen"; "Crocin"; "IBUPROFEN"; "crocin"; "Dolo"])))).
  reflexivity.
Defined.

Lemma from_manual_trimmed (inp : App.Input) :
  Forall Spec.trimmed (App.from_manual inp).
Proof.
  unfold App.from_manual.
  destruct (Py.truthy (Py.strip (App.user_input inp))); [|constructor].
  apply Forall_forall. intros x Hx. apply in_map_iff in Hx.
  destruct Hx as (y & <- & Hy). apply filter_In in Hy.
  apply strip_trimmed, Hy.
Qed.

(** X3.  Every name of the entered list of a run of app.py is not empty,
    has no whitespace around it, and differs from the other names of the
    list also when case is ignored. *)
Theorem entered_list_trimmed_and_distinct (inp : App.Input) (entered : list string) :
  App.entered_list inp = Some entered ->
  Forall Spec.trimmed entered /\ NoDup (map Py.lower entered).
Proof.
  unfold App.entered_list. intro H.
  destruct (App.from_upload inp) as [up|] eqn:Hup; [|discriminate].
  cbn [Pandas.bind] in H. inversion H; subst. clear H.
  split; [|apply dedupe_NoDup].
  apply Forall_forall. intros x Hx. apply dedupe_In in Hx.
  apply filter_In in Hx. destruct Hx as (Hx & Ht).
  apply in_app_or in Hx. destruct Hx as [Hx|Hx].
  - unfold App.from_upload in Hup.
    destruct (App.df_uploaded inp) as [df|];
      [|inversion Hup; subst; destruct Hx].
    destruct (App.selected_col inp) as [col|];
      [|inversion Hup; subst; destruct Hx].
    destruct (App.use_as_reference inp);
      [inversion Hup; subst; destruct Hx|].
    destruct (Pandas.getitem df col) as [s|]; [|discriminate].
    cbn [Pandas.bind] in Hup. inversion Hup; subst.
    apply in_map_iff in Hx. destruct Hx as (y & <- & _).
    apply strip_trimmed, Ht.
  - pose proof (from_manual_trimmed inp) as Hm.
    rewrite Forall_forall in Hm. apply Hm, Hx.
Qed.

Lemma entered_list_trimmed_and_distinct_witness :
  Forall Spec.trimmed ["Dolo"; "crocin"; "Ibuprofen"] /\
  NoDup (map Py.lower ["Dolo"; "crocin"; "Ibuprofen"]).
Proof.
  apply (entered_list_trimmed_and_distinct
           {| App.df_uploaded :=
                Some [("Drug", [Some " Dolo "; None; Some "  "; Some "crocin"])];
              App.selected_col := Some "Drug";
              App.use_as_reference := false;
              App.user_input := "DOLO, , Ibuprofen ,Crocin" |}).
  reflexivity.
Defined.

(** ** The state of a session of app.py *)

Lemma detect_entered (medicine_name : Pandas.Series)
      (entered : list string) (rs : list App.MatchResult) :
  App.detect medicine_name entered = Some rs -> map App.Entered rs = entered.
Proof.
  intro H. destruct (detect_total medicine_name entered) as (rs' & Hrs & Hall).
  assert (rs' = rs) by congruence. subst rs'. clear H Hrs.
  induction Hall as [|med r meds rs Hr _ IH]; [reflexivity|].
  apply match_entry_cases in Hr. cbn [map]. rewrite IH. f_equal.
  destruct Hr as [[_ ->]|(d & i & -> & _)]; reflexivity.
Qed.

Lemma set_reference_same (inp : App.Input) (w w1 : App.World) :
  App.set_reference inp w = Some w1 ->
  App.results w1 = App.results w /\ App.history_csv w1 = App.history_csv w.
Proof.
  unfold App.set_reference. intro H.
  destruct (App.use_as_reference inp); [|inversion H; auto].
  destruct (App.df_uploaded inp) as [df|]; [|inversion H; auto].
  destruct (App.selected_col inp) as [col|]; [|inversion H; auto].
  destruct (if negb (Pandas.has_column "Medicine Name"
                       (Pandas.rename col "Medicine Name" df))
            then _ else _) as [ref_df'|]; [|discriminate].
  cbn in H. inversion H; subst. auto.
Qed.

(** X4.  A run of the Detector page of app.py that does not raise ends in
    one of three ways.  It shows no message: then there were entered names,
    the results of the session are one per entered name, in order, and the
    history file has grown by one row per result, all of the time of the
    run.  Or it warns that nothing was entered, or it reports that the
    reference has no column of names: then the results and the history file
    are as they were. *)
Theorem run_outcomes (inp : App.Input) (now : string) (w w1 : App.World)
        (shown : list App.Message) :
  App.run inp now w = Some (w1, shown) ->
  exists entered,
    App.entered_list inp = Some entered /\
    ((shown = [] /\ entered <> [] /\
      map App.Entered (App.results w1) = entered /\
      App.history_csv w1 =
        App.history_csv w ++
        map (fun r => {| App.h_Time := now;
                         App.h_Entered := App.Entered r;
                         App.h_Closest_Match := App.Closest_Match r;
                         App.h_Match_Score := App.Match_Score r;
                         App.h_Status := App.Status r |}) (App.results w1) /\
      List.length (App.history_csv w1) =
        List.length (App.history_csv w) + List.length entered) \/
     (shown = [App.Warning App.NOTHING_ENTERED] /\ entered = [] /\
      App.results w1 = App.results w /\
      App.history_csv w1 = App.history_csv w) \/
     (shown = [App.Error App.NO_NAME_COLUMN] /\ entered <> [] /\
      Pandas.has_column "Medicine Name" (App.get_reference_df w1) = false /\
      App.results w1 = App.results w /\
      App.history_csv w1 = App.history_csv w)).
Proof.
  unfold App.run. intro H.
  destruct (App.entered_list inp) as [entered|]; [|discriminate].
  exists entered. split; [reflexivity|]. cbn [Pandas.bind] in H.
  destruct (App.set_reference inp w) as [wr|] eqn:Hset; [|discriminate].
  cbn [Pandas.bind] in H.
  destruct (set_reference_same _ _ _ Hset) as (Hres & Hhist).
  destruct entered as [|e rest].
  - inversion H; subst. right. left. auto.
  - destruct (negb (Pandas.has_column "Medicine Name" (App.get_reference_df wr)))
      eqn:Hcol.
    + inversion H; subst. right. right.
      apply negb_true_iff in Hcol. repeat split; auto. discriminate.
    + destruct (Pandas.getitem (App.get_reference_df wr) "Medicine Name")
        as [names|]; [|discriminate].
      cbn [Pandas.bind] in H.
      destruct (App.detect names (e :: rest)) as [rs|] eqn:Hd; [|discriminate].
      cbn [Pandas.bind] in H. inversion H; subst. clear H.
      left. cbn [App.results App.history_csv].
      pose proof (detect_entered _ _ _ Hd) as Hent.
      repeat split.
      * discriminate.
      * exact Hent.
      * unfold App.save_history. rewrite Hhist. reflexivity.
      * unfold App.save_history.
        rewrite length_app, length_map, Hhist, <- Hent, length_map.
        reflexivity.
Qed.

Lemma run_outcomes_witness :
  exists entered,
    App.entered_list
      {| App.df_uploaded := None; App.selected_col := None;
         App.use_as_reference := false; App.user_input := "dolo" |}
    = Some entered /\
    map App.Entered
        [ {| App.Entered := "dolo"; App.Closest_Match := "Dolo";
             App.Match_Score := 100%Q; App.Status := App.CORRECT |} ]
    = entered.
Proof.
  destruct (run_outcomes
              {| App.df_uploaded := None; App.selected_col := None;
                 App.use_as_reference := false; App.user_input := "dolo" |}
              "2024-01-01 10:00:00"
              {| App.results := [];
                 App.reference_df := Some [("Medicine Name", [Some "Dolo"])];
                 App.history_csv := [] |}
              {| App.results :=
                   [ {| App.Entered := "dolo"; App.Closest_Match := "Dolo";
                        App.Match_Score := 100%Q;
                        App.Status := App.CORRECT |} ];
                 App.reference_df := Some [("Medicine Name", [Some "Dolo"])];
                 App.history_csv :=
                   [ {| App.h_Time := "2024-01-01 10:00:00";
                        App.h_Entered := "dolo";
                        App.h_Closest_Match := "Dolo";
                        App.h_Match_Score := 100%Q;
                        App.h_Status := App.CORRECT |} ] |}
              (@nil App.Message))
    as (entered & He & [H|[H|H]]).
  - vm_compute. reflexivity.
  - exists entered. split; [exact He|]. apply H.
  - destruct H as (H & _). discriminate H.
  - destruct H as (H & _). discriminate H.
Defined.

Lemma has_column_In (name : string) (df : Pandas.DataFrame) :
  Pandas.has_column name df = true <-> exists s, In (name, s) df.
Proof.
  unfold Pandas.has_column, Pandas.columns. rewrite existsb_exists. split.
  - intros (n & Hin & Heq). apply String.eqb_eq in Heq. subst n.
    apply in_map_iff in Hin. destruct Hin as ([n s] & Hn & Hin).
    cbn in Hn. subst n. exists s. exact Hin.
  - intros (s & Hin). exists name. split; [|apply String.eqb_refl].
    apply in_map_iff. exists (name, s). split; [reflexivity|exact Hin].
Qed.

Lemma set_reference_named (inp : App.Input) (w w1 : App.World) :
  App.set_reference inp w = Some w1 ->
  Pandas.has_column "Medicine Name" (App.get_reference_df w) = true ->
  Pandas.has_column "Medicine Name" (App.get_reference_df w1) = true.
Proof.
  unfold App.set_reference. intros H Hw.
  destruct (App.use_as_reference inp); [|inversion H; subst; exact Hw].
  destruct (App.df_uploaded inp) as [df|]; [|inversion H; subst; exact Hw].
  destruct (App.selected_col inp) as [col|]; [|inversion H; subst; exact Hw].
  destruct (Pandas.has_column "Medicine Name"
              (Pandas.rename col "Medicine Name" df)) eqn:Hc; cbn [negb] in H.
  - cbn in H. inversion H; subst. exact Hc.
  - destruct (Pandas.getitem df col) as [s|]; [|discriminate].
    cbn in H. inversion H; subst. reflexivity.
Qed.

Lemma run_named (inp : App.Input) (now : string) (w w1 : App.World)
      (shown : list App.Message) :
  App.run inp now w = Some (w1, shown) ->
  Pandas.has_column "Medicine Name" (App.get_reference_df w) = true ->
  Pandas.has_column "Medicine Name" (App.get_reference_df w1) = true /\
  shown <> [App.Error App.NO_NAME_COLUMN].
Proof.
  unfold App.run. intros H Hw.
  destruct (App.entered_list inp) as [entered|]; [|discriminate].
  cbn [Pandas.bind] in H.
  destruct (App.set_reference inp w) as [wr|] eqn:Hset; [|discriminate].
  cbn [Pandas.bind] in H.
  pose proof (set_reference_named _ _ _ Hset Hw) as Hr.
  destruct entered as [|e rest].
  - inversion H; subst. split; [exact Hr|discriminate].
  - rewrite Hr in H. cbn [negb] in H.
    destruct (Pandas.getitem (App.get_reference_df wr) "Medicine Name")
      as [names|]; [|discriminate].
    cbn [Pandas.bind] in H.
    destruct (App.detect names (e :: rest)) as [rs|]; [|discriminate].
    cbn [Pandas.bind] in H. inversion H; subst.
    split; [exact Hr|discriminate].
Qed.

(** X5.  In every state a session of app.py goes through, the reference
    table has a column Medicine Name, as the built-in table has and as every
    upload taken as the reference gets; so no run of the Detector page of
    such a session reports that the column is missing. *)
Theorem reference_always_has_names (w : App.World) :
  Spec.reachable w ->
  Pandas.has_column "Medicine Name" (App.get_reference_df w) = true /\
  (forall inp now w1 shown,
      App.run inp now w = Some (w1, shown) ->
      shown <> [App.Error App.NO_NAME_COLUMN]).
Proof.
  intro Hr.
  assert (Hn : Pandas.has_column "Medicine Name" (App.get_reference_df w) = true).
  { induction Hr as [history|inp now w w1 shown _ IH Hrun|inp w w1 _ IH Hset].
    - reflexivity.
    - exact (proj1 (run_named _ _ _ _ _ Hrun IH)).
    - exact (set_reference_named _ _ _ Hset IH). }
  split; [exact Hn|].
  intros inp now w1 shown Hrun. exact (proj2 (run_named _ _ _ _ _ Hrun Hn)).
Qed.

Lemma reference_always_has_names_witness :
  Pandas.has_column "Medicine Name"
    (App.get_reference_df
       {| App.results := [];
          App.reference_df := Some [("Medicine Name", [Some "Dolo"]);
                                    ("Price", [Some "30"])];
          App.history_csv := [] |}) = true.
Proof.
  apply reference_always_has_names.
  apply (Spec.reach_raise
           {| App.df_uploaded := Some [("Drug", [Some "Dolo"]);
                                       ("Price", [Some "30"])];
              App.selected_col := Some "Drug";
              App.use_as_reference := true;
              App.user_input := "" |}
           {| App.results := []; App.reference_df := None;
              App.history_csv := [] |}).
  - apply Spec.reach_new.
  - reflexivity.
Defined.

(** ** An upload as the reference *)

Lemma filter_map_comm {A B : Type} (f : A -> B) (p : B -> bool) (l : list A) :
  filter p (map f l) = map f (filter (fun x => p (f x)) l).
Proof.
  induction l as [|x r IH]; [reflexivity|].
  cbn [map filter]. rewrite IH. destruct (p (f x)); reflexivity.
Qed.

Lemma getitem_Some (df : Pandas.DataFrame) (name : string) (s : Pandas.Series) :
  Pandas.getitem df name = Some s ->
  exists c, filter (fun c => String.eqb (fst c) name) df = [c] /\ snd c = s.
Proof.
  unfold Pandas.getitem. intro H.
  destruct (filter _ df) as [|c [|c' t]]; try discriminate.
  exists c. split; [reflexivity|congruence].
Qed.

(** The column of the names of the renamed upload is the selected column,
    when the upload has no other column of that name. *)
Lemma getitem_rename (df : Pandas.DataFrame) (col : string) (s : Pandas.Series) :
  Pandas.getitem df col = Some s ->
  col = "Medicine Name" \/ Pandas.has_column "Medicine Name" df = false ->
  Pandas.getitem (Pandas.rename col "Medicine Name" df) "Medicine Name" = Some s.
Proof.
  intros Hg Hno. destruct (getitem_Some _ _ _ Hg) as (c & Hf & Hs).
  unfold Pandas.getitem, Pandas.rename. rewrite filter_map_comm.
  assert (Hext : forall x, In x df ->
            String.eqb (fst (if String.eqb (fst x) col
                             then ("Medicine Name", snd x) else x))
                       "Medicine Name"
            = String.eqb (fst x) col).
  { intros x Hx. destruct (String.eqb (fst x) col) eqn:E; [reflexivity|].
    destruct Hno as [->|Hno]; [exact E|].
    destruct (String.eqb (fst x) "Medicine Name") eqn:E2; [|reflexivity].
    apply String.eqb_eq in E2.
    assert (Pandas.has_column "Medicine Name" df = true).
    { apply has_column_In. exists (snd x). rewrite <- E2.
      destruct x; exact Hx. }
    congruence. }
  rewrite (filter_ext_in _ _ _ Hext), Hf. cbn [map].
  assert (Hc : String.eqb (fst c) col = true).
  { assert (In c (filter (fun c => String.eqb (fst c) col) df))
      by (rewrite Hf; left; reflexivity).
    apply filter_In in H. apply H. }
  rewrite Hc. cbn [snd]. congruence.
Qed.

(** X6.  When an upload is ticked as the reference, its selected column
    exists, and it has no other column called Medicine Name, a run with
    entered names matches them against the names of that column: the upload
    with the column renamed becomes the reference of the session, and the
    results of the run are the detection against the selected column. *)
Theorem upload_becomes_reference (inp : App.Input) (now : string) (w : App.World)
        (df : Pandas.DataFrame) (col : string) (names : Pandas.Series)
        (entered : list string) :
  App.use_as_reference inp = true ->
  App.df_uploaded inp = Some df ->
  App.selected_col inp = Some col ->
  Pandas.getitem df col = Some names ->
  col = "Medicine Name" \/ Pandas.has_column "Medicine Name" df = false ->
  App.entered_list inp = Some entered ->
  entered <> [] ->
  exists rs,
    App.detect names entered = Some rs /\
    App.run inp now w =
    Some ({| App.results := rs;
             App.reference_df :=
               Some (Pandas.rename col "Medicine Name" df);
             App.history_csv := App.save_history now rs (App.history_csv w) |},
          []).
Proof.
  intros Huse Hdf Hcol Hg Hno He Hne.
  destruct (detect_total names entered) as (rs & Hrs & _).
  exists rs. split; [exact Hrs|].
  pose proof (getitem_rename _ _ _ Hg Hno) as Hgr.
  assert (Hhas : Pandas.has_column "Medicine Name"
                   (Pandas.rename col "Medicine Name" df) = true).
  { destruct (getitem_Some _ _ _ Hgr) as ([n c] & Hf & _).
    assert (Hin : In (n, c) (filter (fun c => String.eqb (fst c) "Medicine Name")
                               (Pandas.rename col "Medicine Name" df)))
      by (rewrite Hf; left; reflexivity).
    apply filter_In in Hin. destruct Hin as (Hin & Hn).
    cbn in Hn. apply String.eqb_eq in Hn. subst n.
    apply has_column_In. exists c. exact Hin. }
  unfold App.run. rewrite He. cbn [Pandas.bind].
  unfold App.set_reference. rewrite Huse, Hdf, Hcol, Hhas.
  cbn [negb Pandas.bind].
  destruct entered as [|e rest]; [congruence|].
  unfold App.get_reference_df. cbn [App.reference_df].
  rewrite Hhas, Hgr. cbn [negb Pandas.bind]. rewrite Hrs.
  reflexivity.
Qed.

Lemma upload_becomes_reference_witness :
  exists rs,
    App.detect [Some "Dolo 650"; None; Some " Crocin "] ["crocin"] = Some rs /\
    App.run {| App.df_uploaded :=
                 Some [("Drug", [Some "Dolo 650"; None; Some " Crocin "])];
               App.selected_col := Some "Drug";
               App.use_as_reference := true;
               App.user_input := "crocin" |}
            "2024-01-01 10:00:00" App.initial =
    Some ({| App.results := rs;
             App.reference_df :=
               Some (Pandas.rename "Drug" "Medicine Name"
                       [("Drug", [Some "Dolo 650"; None; Some " Crocin "])]);
             App.history_csv :=
               App.save_history "2024-01-01 10:00:00" rs
                                (App.history_csv App.initial) |},
          []).
Proof.
  apply (upload_becomes_reference
           {| App.df_uploaded :=
                Some [("Drug", [Some "Dolo 650"; None; Some " Crocin "])];
              App.selected_col := Some "Drug";
              App.use_as_reference := true;
              App.user_input := "crocin" |}
           "2024-01-01 10:00:00" App.initial
           [("Drug", [Some "Dolo 650"; None; Some " Crocin "])] "Drug").
  - reflexivity.
  - reflexivity.
  - reflexivity.
  - reflexivity.
  - right. reflexivity.
  - reflexivity.
  - discriminate.
Defined.

Lemma filter_two {A : Type} (p : A -> bool) (l : list A) (x y : A) :
  In x l -> In y l -> x <> y -> p x = true -> p y = true ->
  2 <= List.length (filter p l).
Proof.
  intros Hx Hy Hxy Px Py.
  destruct (in_split _ _ Hx) as (l1 & l2 & ->).
  rewrite filter_app. cbn [filter]. rewrite Px, length_app. cbn [List.length].
  apply in_app_or in Hy. destruct Hy as [Hy|[Hy|Hy]]; [|congruence|].
  - assert (In y (filter p l1)) by (apply filter_In; auto).
    destruct (filter p l1); [contradiction|cbn; lia].
  - assert (In y (filter p l2)) by (apply filter_In; auto).
    destruct (filter p l2); [contradiction|cbn; lia].
Qed.

(** X7.  When an upload is ticked as the reference and has a column called
    Medicine Name beside the selected column, the renaming gives it two
    columns of that name, and a run with entered names raises: it ends with
    no results and no row of history. *)
Theorem two_name_columns_raise (inp : App.Input) (now : string) (w : App.World)
        (df : Pandas.DataFrame) (col : string) (entered : list string) :
  App.use_as_reference inp = true ->
  App.df_uploaded inp = Some df ->
  App.selected_col inp = Some col ->
  col <> "Medicine Name" ->
  Pandas.has_column col df = true ->
  Pandas.has_column "Medicine Name" df = true ->
  App.entered_list inp = Some entered ->
  entered <> [] ->
  App.run inp now w = None.
Proof.
  intros Huse Hdf Hcol Hne Hc Hm He Hent.
  apply has_column_In in Hc. destruct Hc as (sc & Hc).
  apply has_column_In in Hm. destruct Hm as (sm & Hm).
  assert (Hrc : In ("Medicine Name", sc) (Pandas.rename col "Medicine Name" df)).
  { unfold Pandas.rename. apply in_map_iff. exists (col, sc).
    cbn [fst snd]. rewrite String.eqb_refl. auto. }
  assert (Hrm : In ("Medicine Name", sm) (Pandas.rename col "Medicine Name" df)).
  { unfold Pandas.rename. apply in_map_iff. exists ("Medicine Name", sm).
    cbn [fst snd].
    destruct (String.eqb_spec "Medicine Name" col); [congruence|auto]. }
  assert (Hhas : Pandas.has_column "Medicine Name"
                   (Pandas.rename col "Medicine Name" df) = true)
    by (apply has_column_In; exists sm; exact Hrm).
  assert (Hnone : Pandas.getitem (Pandas.rename col "Medicine Name" df)
                                 "Medicine Name" = None).
  { unfold Pandas.getitem, Pandas.rename. rewrite filter_map_comm.
    match goal with
    | |- context [filter ?p df] =>
        assert (H2 : 2 <= List.length (filter p df));
        [apply (filter_two p df (col, sc) ("Medicine Name", sm));
         [exact Hc|exact Hm|congruence| |]|
         destruct (filter p df) as [|c1 [|c2 t]]]
    end.
    - cbn [fst snd]. rewrite String.eqb_refl. reflexivity.
    - cbn [fst snd].
      destruct (String.eqb_spec "Medicine Name" col); reflexivity.
    - cbn in H2. lia.
    - cbn in H2. lia.
    - reflexivity. }
  unfold App.run. rewrite He. cbn [Pandas.bind].
  unfold App.set_reference. rewrite Huse, Hdf, Hcol, Hhas.
  cbn [negb Pandas.bind].
  destruct entered as [|e rest]; [congruence|].
  unfold App.get_reference_df. cbn [App.reference_df].
  rewrite Hhas, Hnone. reflexivity.
Qed.

Lemma two_name_columns_raise_witness :
  App.run {| App.df_uploaded :=
               Some [("Medicine Name", [Some "Dolo"]); ("Brand", [Some "Crocin"])];
             App.selected_col := Some "Brand";
             App.use_as_reference := true;
             App.user_input := "crocin" |}
          "2024-01-01 10:00:00" App.initial = None.
Proof.
  apply (two_name_columns_raise _ _ _
           [("Medicine Name", [Some "Dolo"]); ("Brand", [Some "Crocin"])]
           "Brand" ["crocin"]);
    try reflexivity; discriminate.
Defined.

(** ** The History page of app.py *)

Lemma mismatch_word_in_status (s : Q) :
  App.find "Mismatch" (App.status_of s) = RapidFuzz.Qltb s 95.
Proof.
  unfold App.status_of, RapidFuzz.Qltb.
  destruct (Qle_bool 95 s); [reflexivity|].
  destruct (Qle_bool 70 s); reflexivity.
Qed.

Lemma mismatches_only_app (h1 h2 : list App.HistoryRow) :
  App.mismatches_only (h1 ++ h2) =
  App.mismatches_only h1 ++ App.mismatches_only h2.
Proof. apply filter_app. Qed.

(** X8.  Of the rows that a detection adds to the history, the History page
    asked for the mismatches only shows exactly the rows of the results with
    a score below 95, the Possible Mismatch ones as well as the Mismatch
    ones, and keeps what it showed of the older rows. *)
Theorem mismatches_only_below_95 (medicine_name : Pandas.Series)
        (entered_list : list string) (now : string)
        (history : list App.HistoryRow) :
  exists rs,
    App.detect medicine_name entered_list = Some rs /\
    App.mismatches_only (App.save_history now rs history) =
    App.mismatches_only history ++
    App.save_history now
      (filter (fun r => RapidFuzz.Qltb (App.Match_Score r) 95) rs) [].
Proof.
  destruct (detect_Forall
              (fun r => App.Status r = App.status_of (App.Match_Score r))
              medicine_name entered_list) as (rs & Hrs & Hall).
  { intros med r Hr. apply match_entry_cases in Hr.
    destruct Hr as [[_ ->]|(d & i & -> & _)]; reflexivity. }
  exists rs. split; [exact Hrs|].
  unfold App.save_history. rewrite mismatches_only_app. f_equal.
  cbn [app]. clear Hrs.
  induction Hall as [|r rs Hr _ IH]; [reflexivity|].
  unfold App.mismatches_only in *. cbn [map filter App.h_Status].
  assert (Hb : App.find "Mismatch" (App.Status r) =
               RapidFuzz.Qltb (App.Match_Score r) 95)
    by (rewrite Hr; apply mismatch_word_in_status).
  rewrite Hb.
  destruct (RapidFuzz.Qltb (App.Match_Score r) 95); cbn [map];
    rewrite IH; reflexivity.
Qed.

(** ** The score 100 *)

Lemma lcs_spec_full (s1 s2 : list ascii) :
  RapidFuzz.lcs_spec s1 s2 = List.length s1 ->
  List.length s1 = List.length s2 -> s1 = s2.
Proof.
  revert s2. induction s1 as [|a s1 IH]; intros s2 H Hlen.
  - destruct s2; [reflexivity|discriminate].
  - destruct s2 as [|b s2]; [discriminate|].
    rewrite lcs_spec_cons in H. cbn [List.length] in *.
    destruct (Ascii.eqb_spec a b) as [->|Hab].
    + f_equal. apply IH; lia.
    + pose proof (lcs_spec_le_l s1 (b :: s2)).
      pose proof (lcs_spec_le_r (a :: s1) s2). lia.
Qed.

Lemma list_ascii_of_string_inj (s1 s2 : string) :
  list_ascii_of_string s1 = list_ascii_of_string s2 -> s1 = s2.
Proof.
  intro H. rewrite <- (string_of_list_ascii_of_string s1),
                   <- (string_of_list_ascii_of_string s2).
  congruence.
Qed.

Lemma ratio_canonical (s1 s2 : string) :
  (RapidFuzz.ratio s1 s2 == 100)%Q -> RapidFuzz.ratio s1 s2 = 100%Q.
Proof.
  unfold RapidFuzz.ratio. intro H. rewrite Qred_correct in H.
  change 100%Q with (Qred 100) at 2. apply Qred_complete. exact H.
Qed.

(** Only a text itself has the ratio 100 with it. *)
Lemma ratio_100_eq (s1 s2 : string) :
  RapidFuzz.ratio s1 s2 = 100%Q -> s1 = s2.
Proof.
  intro H.
  assert (Hq : (RapidFuzz.ratio s1 s2 == 100)%Q) by (rewrite H; reflexivity).
  clear H. unfold RapidFuzz.ratio in Hq. rewrite Qred_correct in Hq.
  pose proof (indel_distance_exact s1 s2) as Hd.
  pose proof (lcs_le_l s1 s2) as Hl. pose proof (lcs_le_r s1 s2) as Hr.
  destruct (Nat.eqb_spec (String.length s1 + String.length s2) 0) as [E|NE].
  - destruct s1; [|discriminate]. destruct s2; [reflexivity|discriminate].
  - set (d := RapidFuzz.indel_distance s1 s2) in *.
    assert (Hx : (Z.of_nat d # Pos.of_nat (String.length s1 + String.length s2)
                  == 0)%Q) by lra.
    unfold Qeq in Hx. cbn in Hx.
    assert (d = 0) by lia.
    apply list_ascii_of_string_inj. apply lcs_spec_full.
    + rewrite <- lcs_correct, length_list_ascii. lia.
    + rewrite !length_list_ascii. lia.
Qed.

Lemma ratio_100_iff (s1 s2 : string) :
  RapidFuzz.ratio s1 s2 = 100%Q <-> s1 = s2.
Proof. split; [apply ratio_100_eq|intros ->; apply ratio_refl]. Qed.

(** A score that the score 100 does not exceed is 100. *)
Lemma ratio_top (s1 s2 : string) (q : Q) :
  q = 100%Q -> (q <= RapidFuzz.ratio s1 s2)%Q -> RapidFuzz.ratio s1 s2 = 100%Q.
Proof.
  intros -> H. apply ratio_canonical.
  pose proof (proj2 (ratio_in_range s1 s2)). lra.
Qed.

(** X9.  In app.py, against a non-empty reference, the score of a result
    is 100 exactly when the entered name and the closest match have the
    same token-sorted form once stripped and lower-cased, and a result of
    score 100 is Correct.  When some reference name has the token-sorted
    normal form of the entered name, as a reference name equal to it up to
    case and outer whitespace has, the score is 100 and the closest match
    is the first such reference name. *)
Theorem same_name_scores_100 (display : list string) (med : string)
        (r : App.MatchResult) :
  display <> [] ->
  App.match_entry display (App.normalize_series display) med = Some r ->
  (App.Match_Score r = 100%Q <->
   RapidFuzz.token_sort (Py.lower (Py.strip (App.Closest_Match r))) =
   RapidFuzz.token_sort (Py.lower (Py.strip med))) /\
  (App.Match_Score r = 100%Q -> App.Status r = App.CORRECT) /\
  ((exists d, In d display /\
              RapidFuzz.token_sort (Py.lower (Py.strip d)) =
              RapidFuzz.token_sort (Py.lower (Py.strip med))) ->
   App.Match_Score r = 100%Q /\
   exists i,
     nth_error display i = Some (App.Closest_Match r) /\
     forall j d', j < i -> nth_error display j = Some d' ->
                  RapidFuzz.token_sort (Py.lower (Py.strip d')) <>
                  RapidFuzz.token_sort (Py.lower (Py.strip med))).
Proof.
  intros Hne Hr. apply match_entry_cases in Hr.
  destruct Hr as [[E _]|(d & i & -> & Hd & Hb)]; [congruence|].
  cbn [App.Match_Score App.Closest_Match App.Status].
  unfold RapidFuzz.token_sort_ratio in *.
  split; [|split].
  - rewrite ratio_100_iff. split; congruence.
  - intros ->. reflexivity.
  - intros (d0 & Hin & Hkey).
    assert (H100 : RapidFuzz.ratio
                     (RapidFuzz.token_sort (Py.lower (Py.strip med)))
                     (RapidFuzz.token_sort (Py.lower (Py.strip d))) = 100%Q).
    { destruct Hb as (_ & Hmax & _).
      assert (Hin' : In (Py.lower (Py.strip d0)) (App.normalize_series display)).
      { unfold App.normalize_series. apply in_map_iff. exists d0. auto. }
      specialize (Hmax _ Hin'). cbv beta in Hmax.
      eapply ratio_top; [|exact Hmax].
      rewrite Hkey. apply ratio_refl. }
    split; [exact H100|].
    exists i. split; [exact Hd|].
    intros j d' Hj Hn Hkey'.
    destruct Hb as (_ & _ & Hfirst).
    specialize (Hfirst j _ Hj (norm_nth display j d' Hn)). cbv beta in Hfirst.
    rewrite Hkey', ratio_refl, H100 in Hfirst. lra.
Qed.

Lemma same_name_scores_100_witness :
  App.Match_Score
    {| App.Entered := " 650  DOLO "; App.Closest_Match := "Dolo 650";
       App.Match_Score := 100%Q; App.Status := App.CORRECT |} = 100%Q /\
  exists i,
    nth_error ["Crocin"; "Dolo 650"; "dolo 650"] i = Some "Dolo 650" /\
    forall j d', j < i ->
      nth_error ["Crocin"; "Dolo 650"; "dolo 650"] j = Some d' ->
      RapidFuzz.token_sort (Py.lower (Py.strip d')) <>
      RapidFuzz.token_sort (Py.lower (Py.strip " 650  DOLO ")).
Proof.
  apply (proj2 (proj2 (same_name_scores_100
                         ["Crocin"; "Dolo 650"; "dolo 650"] " 650  DOLO "
                         {| App.Entered := " 650  DOLO ";
                            App.Closest_Match := "Dolo 650";
                            App.Match_Score := 100%Q;
                            App.Status := App.CORRECT |}
                         ltac:(discriminate) ltac:(vm_compute; reflexivity)))).
  exists "dolo 650". split; [right; right; left; reflexivity|reflexivity].
Defined.

(** X10.  In Home.py the score of a result with a closest match is 100
    exactly when the entered name and the closest match are equal up to
    case, and when some reference name is equal to the entered name up to
    case the result has the score 100, the flag No and the first such
    reference name as closest match. *)
Theorem home_same_name_scores_100 (refs : list string) (med : string) :
  (forall c,
      Home.Closest_Match (Home.check refs med) = Some c ->
      (Home.Match_Score (Home.check refs med) = 100%Q <->
       Py.lower c = Py.lower med)) /\
  ((exists ref, In ref refs /\ Py.lower ref = Py.lower med) ->
   Home.Match_Score (Home.check refs med) = 100%Q /\
   Home.Mismatch (Home.check refs med) = Home.NO /\
   exists c i,
     Home.Closest_Match (Home.check refs med) = Some c /\
     nth_error refs i = Some c /\
     Py.lower c = Py.lower med /\
     forall j c', j < i -> nth_error refs j = Some c' ->
                  Py.lower c' <> Py.lower med).
Proof.
  destruct (check_cases refs med) as [[Hck Hz]|(c & i & Hck & Hpos & Hb)];
    rewrite Hck; cbn [Home.Closest_Match Home.Match_Score Home.Mismatch].
  - split; [discriminate|].
    intros (ref & Hin & Heq). specialize (Hz ref Hin). cbv beta in Hz.
    rewrite Heq, ratio_refl in Hz. lra.
  - split.
    + intros c' Hc'. inversion Hc'; subst c'. rewrite ratio_100_iff.
      split; congruence.
    + intros (ref & Hin & Heq).
      assert (H100 : RapidFuzz.ratio (Py.lower med) (Py.lower c) = 100%Q).
      { destruct Hb as (_ & Hmax & _). specialize (Hmax ref Hin).
        cbv beta in Hmax. eapply ratio_top; [|exact Hmax].
        rewrite Heq. apply ratio_refl. }
      rewrite H100. split; [reflexivity|]. split; [reflexivity|].
      exists c, i. split; [reflexivity|]. split; [apply Hb|].
      split; [symmetry; apply ratio_100_eq, H100|].
      intros j c' Hj Hn Heq'.
      destruct Hb as (_ & _ & Hfirst). specialize (Hfirst j c' Hj Hn).
      cbv beta in Hfirst. rewrite Heq', ratio_refl, H100 in Hfirst. lra.
Qed.

Lemma home_same_name_scores_100_witness :
  Home.Match_Score (Home.check ["Crocin"; "IBUPROFEN"; "ibuprofen"] "Ibuprofen")
    = 100%Q /\
  Home.Mismatch (Home.check ["Crocin"; "IBUPROFEN"; "ibuprofen"] "Ibuprofen")
    = Home.NO /\
  exists c i,
    Home.Closest_Match
      (Home.check ["Crocin"; "IBUPROFEN"; "ibuprofen"] "Ibuprofen") = Some c /\
    nth_error ["Crocin"; "IBUPROFEN"; "ibuprofen"] i = Some c /\
    Py.lower c = Py.lower "Ibuprofen" /\
    forall j c', j < i ->
      nth_error ["Crocin"; "IBUPROFEN"; "ibuprofen"] j = Some c' ->
      Py.lower c' <> Py.lower "Ibuprofen".
Proof.
  apply (proj2 (home_same_name_scores_100
                  ["Crocin"; "IBUPROFEN"; "ibuprofen"] "Ibuprofen")).
  exists "ibuprofen". split; [|reflexivity].
  do 2 right. left. reflexivity.
Defined.

(** ** The search pages, further *)

Lemma sorted_nil_inv {A : Type} (le : A -> A -> bool) (l : list A) :
  Py.sorted le l = [] -> l = [].
Proof.
  intro H. pose proof (sorted_perm le l) as HP. rewrite H in HP.
  apply Permutation_nil. exact HP.
Qed.

Lemma matches_nil (refs : list string) (query : string) :
  Home.matches refs query = [] <->
  forall ref, In ref refs ->
              (RapidFuzz.ratio (Py.lower query) (Py.lower ref) <= 60)%Q.
Proof.
  unfold Home.matches. induction refs as [|x r IH]; cbn [map filter snd].
  - split; [intros _ ref []|reflexivity].
  - destruct (RapidFuzz.Qltb 60 (RapidFuzz.ratio (Py.lower query) (Py.lower x)))
      eqn:E.
    + split; [discriminate|]. intro H.
      apply Qltb_lt in E. specialize (H x (or_introl eq_refl)). lra.
    + apply Qltb_ge in E. rewrite IH. split.
      * intros H ref [<-|Hin]; auto.
      * intros H ref Hin. apply H. right. exact Hin.
Qed.

(** X11.  The search page of Home.py shows nothing for the empty query and
    only for it; for another query it shows the message that no close
    match was found exactly when no reference name has a ratio above 60 with
    the query, and the list of matches it shows otherwise is never empty. *)
Theorem home_search_views (refs : list string) (query : string) :
  (Home.search refs query = Home.Blank <-> query = EmptyString) /\
  (Home.search refs query = Home.NoCloseMatch <->
   query <> EmptyString /\
   forall ref, In ref refs ->
               (RapidFuzz.ratio (Py.lower query) (Py.lower ref) <= 60)%Q) /\
  (forall lines,
      Home.search refs query = Home.Found lines ->
      lines <> [] /\ query <> EmptyString /\
      exists ref, In ref refs /\
                  (60 < RapidFuzz.ratio (Py.lower query) (Py.lower ref))%Q).
Proof.
  unfold Home.search. destruct query as [|a q]; cbn [Py.truthy].
  - split; [split; reflexivity|]. split; [|discriminate].
    split; [discriminate|]. intros (H & _). congruence.
  - pose proof (matches_nil refs (String a q)) as Hnil.
    destruct (Home.matches refs (String a q)) as [|m ms] eqn:Hm.
    + split; [split; discriminate|]. split; [|discriminate].
      split; [|reflexivity]. intros _. split; [discriminate|].
      apply Hnil. reflexivity.
    + split; [split; discriminate|]. split.
      * split; [discriminate|]. intros (_ & H).
        apply Hnil in H. discriminate.
      * intros lines H. inversion H; subst lines. clear H.
        split; [intro E; apply sorted_nil_inv in E; discriminate|].
        split; [discriminate|].
        assert (Hin : In m (Home.matches refs (String a q)))
          by (rewrite Hm; left; reflexivity).
        unfold Home.matches in Hin. apply filter_In in Hin.
        destruct Hin as (Hin & Hs). apply in_map_iff in Hin.
        destruct Hin as (ref & <- & Hin). cbn [snd] in Hs.
        exists ref. split; [exact Hin|apply Qltb_lt, Hs].
Qed.

Lemma home_search_views_witness :
  Home.search Home.medicine_names "zzz" = Home.NoCloseMatch.
Proof.
  apply (proj2 (proj1 (proj2 (home_search_views Home.medicine_names "zzz")))).
  split; [discriminate|].
  intros ref H.
  repeat (destruct H as [<-|H]; [vm_compute; discriminate|]).
  destruct H.
Defined.

(** X12.  The search page of app.py ignores the case of the query: two
    queries of letters, digits and spaces that are equal up to case show the
    same rows. *)
Theorem app_search_ignores_case (w : App.World) (q1 q2 : string) :
  App.plain q1 = true -> App.plain q2 = true ->
  Py.lower q1 = Py.lower q2 ->
  App.search w q1 = App.search w q2.
Proof.
  intros H1 H2 Hl. unfold App.search.
  assert (Ht : Py.truthy q1 = Py.truthy q2)
    by (rewrite <- (truthy_lower q1), <- (truthy_lower q2), Hl; reflexivity).
  rewrite Ht. destruct (Py.truthy q2); [|reflexivity].
  destruct (Pandas.getitem (App.get_reference_df w) "Medicine Name");
    [|reflexivity].
  cbn [Pandas.bind].
  rewrite (contains_each_plain _ _ H1), (contains_each_plain _ _ H2), Hl.
  reflexivity.
Qed.

Lemma app_search_ignores_case_witness :
  App.search App.initial "PARA" = App.search App.initial "para".
Proof.
  apply app_search_ignores_case; reflexivity.
Defined.

(** ** The Analytics page of Home.py *)

Lemma check_flag (refs : list string) (med : string) :
  Home.Mismatch (Home.check refs med) = Home.YES \/
  Home.Mismatch (Home.check refs med) = Home.NO.
Proof.
  unfold Home.check. destruct (Home.best_of refs med) as [bm bs].
  cbn [Home.Mismatch]. destruct (RapidFuzz.Qltb bs 90); auto.
Qed.

Lemma detect_flags_count (refs meds : list string) :
  List.length (filter (fun r => String.eqb (Home.Mismatch r) Home.YES)
                      (Home.detect refs meds)) +
  List.length (filter (fun r => String.eqb (Home.Mismatch r) Home.NO)
                      (Home.detect refs meds)) =
  List.length (Home.detect refs meds).
Proof.
  unfold Home.detect. induction meds as [|med rest IH]; [reflexivity|].
  cbn [map filter].
  assert (Hyn : String.eqb Home.YES Home.NO = false) by reflexivity.
  assert (Hny : String.eqb Home.NO Home.YES = false) by reflexivity.
  destruct (check_flag refs med) as [E|E]; rewrite E, ?String.eqb_refl, ?Hyn, ?Hny;
    cbn [List.length]; lia.
Qed.

Lemma list_sum_cons (x : nat) (l : list nat) :
  list_sum (x :: l) = x + list_sum l.
Proof. reflexivity. Qed.

(** X13.  On the Analytics page of Home.py the count of Mismatch and the
    count of Correct together are the number of all results of the history,
    when the records of the history hold results of detections, as the
    records that a run appends do. *)
Theorem home_counts_cover_history (history : list Home.Record_) :
  Forall (fun rec => exists refs meds,
              Home.results rec = Home.detect refs meds) history ->
  Home.count_flag Home.YES history + Home.count_flag Home.NO history =
  list_sum (map (fun rec => List.length (Home.results rec)) history) /\
  (forall refs meds now rs history',
      Home.run refs meds now history = Some (rs, history') ->
      Forall (fun rec => exists refs meds,
                  Home.results rec = Home.detect refs meds) history').
Proof.
  intro Hall. split.
  - unfold Home.count_flag.
    induction Hall as [|rec rest (refs & meds & Hrec) _ IH]; [reflexivity|].
    cbn [map]. rewrite !list_sum_cons, Hrec.
    pose proof (detect_flags_count refs meds). lia.
  - intros refs meds now rs history' Hrun. unfold Home.run in Hrun.
    destruct (Home.detect refs meds) as [|r0 rest] eqn:Hd; [discriminate|].
    inversion Hrun; subst. apply Forall_app. split; [exact Hall|].
    constructor; [|constructor]. exists refs, meds. cbn. congruence.
Qed.

Lemma home_counts_cover_history_witness :
  Home.count_flag Home.YES
    [ {| Home.time := "2024-01-01 10:00:00";
         Home.results := Home.detect Home.medicine_names
                                     ["Parasitamol"; "Ibuprofen"; "Qqq"] |} ] +
  Home.count_flag Home.NO
    [ {| Home.time := "2024-01-01 10:00:00";
         Home.results := Home.detect Home.medicine_names
                                     ["Parasitamol"; "Ibuprofen"; "Qqq"] |} ] =
  list_sum
    (map (fun rec => List.length (Home.results rec))
       [ {| Home.time := "2024-01-01 10:00:00";
            Home.results := Home.detect Home.medicine_names
                                        ["Parasitamol"; "Ibuprofen"; "Qqq"] |} ]).
Proof.
  apply home_counts_cover_history.
  constructor; [|constructor].
  exists Home.medicine_names, ["Parasitamol"; "Ibuprofen"; "Qqq"]. reflexivity.
Defined.

(** ** The cleaning of the entered texts of Home.py *)

Lemma lstrip_length (s : string) : String.length (Py.lstrip s) <= String.length s.
Proof.
  induction s as [|c r IH]; [apply Nat.le_refl|].
  cbn [Py.lstrip]. destruct (Py.isspace c); cbn [String.length]; lia.
Qed.

Lemma rstrip_length (s : string) : String.length (Py.rstrip s) <= String.length s.
Proof.
  induction s as [|c r IH]; [apply Nat.le_refl|].
  cbn [Py.rstrip].
  destruct (Py.isspace c && negb (Py.truthy (Py.rstrip r)));
    cbn [String.length]; lia.
Qed.

(** A text that stripping leaves as it is starts with no whitespace and
    ends with none. *)
Lemma strip_fixed (c : ascii) (r : string) :
  Py.strip (String c r) = String c r ->
  Py.isspace c = false /\ Py.rstrip r = r.
Proof.
  unfold Py.strip. cbn [Py.lstrip]. intro H.
  destruct (Py.isspace c) eqn:E.
  - pose proof (rstrip_length (Py.lstrip r)). pose proof (lstrip_length r).
    rewrite H in *. cbn [String.length] in *. lia.
  - split; [reflexivity|]. cbn [Py.rstrip] in H. rewrite E in H.
    cbn [andb] in H. congruence.
Qed.

Lemma capitalize_trimmed (s : string) :
  Spec.trimmed s ->
  Spec.trimmed (Py.capitalize s) /\ Py.capitalize (Py.capitalize s) = Py.capitalize s.
Proof.
  intros (Hne & Hs). destruct s as [|c r]; [congruence|].
  destruct (strip_fixed c r Hs) as (Hc & Hr).
  cbn [Py.capitalize]. split; [split; [discriminate|]|].
  - unfold Py.strip. cbn [Py.lstrip]. rewrite upper_char_isspace, Hc.
    cbn [Py.rstrip]. rewrite upper_char_isspace, Hc. cbn [andb].
    rewrite rstrip_lower, Hr. reflexivity.
  - rewrite upper_char_idem, lower_idem. reflexivity.
Qed.

Lemma clean_member (l : list string) (m : string) :
  In m (Home.clean l) -> Spec.trimmed m /\ Py.capitalize m = m.
Proof.
  unfold Home.clean. intro H. apply in_map_iff in H.
  destruct H as (x & <- & Hx). apply filter_In in Hx. destruct Hx as (_ & Ht).
  destruct (capitalize_trimmed _ (strip_trimmed x Ht)) as (H1 & H2). auto.
Qed.

Lemma lower_char_ascii (c : ascii) :
  (nat_of_ascii (Py.lower_char c) <? 128) = (nat_of_ascii c <? 128).
Proof. destruct c as [[] [] [] [] [] [] [] []]; reflexivity. Qed.

Lemma upper_char_ascii (c : ascii) :
  (nat_of_ascii (Py.upper_char c) <? 128) = (nat_of_ascii c <? 128).
Proof. destruct c as [[] [] [] [] [] [] [] []]; reflexivity. Qed.

Lemma lower_ascii (s : string) : Py.is_ascii (Py.lower s) = Py.is_ascii s.
Proof.
  induction s as [|c r IH]; [reflexivity|].
  cbn [Py.lower Py.is_ascii]. rewrite lower_char_ascii, IH. reflexivity.
Qed.

Lemma capitalize_ascii (s : string) :
  Py.is_ascii (Py.capitalize s) = Py.is_ascii s.
Proof.
  destruct s as [|c r]; [reflexivity|].
  cbn [Py.capitalize Py.is_ascii]. rewrite upper_char_ascii, lower_ascii.
  reflexivity.
Qed.

Lemma lstrip_ascii (s : string) :
  Py.is_ascii s = true -> Py.is_ascii (Py.lstrip s) = true.
Proof.
  induction s as [|c r IH]; [reflexivity|].
  intro H. cbn [Py.lstrip]. destruct (Py.isspace c); [|exact H].
  cbn [Py.is_ascii] in H. apply andb_true_iff in H. apply IH, H.
Qed.

Lemma rstrip_ascii (s : string) :
  Py.is_ascii s = true -> Py.is_ascii (Py.rstrip s) = true.
Proof.
  induction s as [|c r IH]; [reflexivity|].
  intro H. cbn [Py.is_ascii] in H. apply andb_true_iff in H.
  destruct H as (Hc & Hr). cbn [Py.rstrip].
  destruct (Py.isspace c && negb (Py.truthy (Py.rstrip r))); [reflexivity|].
  cbn [Py.is_ascii]. rewrite Hc, (IH Hr). reflexivity.
Qed.

Lemma strip_ascii (s : string) :
  Py.is_ascii s = true -> Py.is_ascii (Py.strip s) = true.
Proof. intro H. apply rstrip_ascii, lstrip_ascii, H. Qed.

(** X14.  Of entered texts of ASCII characters, every name that the
    cleaning of Home.py gives is a text of ASCII characters, is not empty,
    has no whitespace around it and reads as capitalized, and cleaning the
    cleaned list changes nothing. *)
Theorem home_clean_normal_form (medicines_list : list string) :
  Forall (fun m => Py.is_ascii m = true) medicines_list ->
  Forall (fun m => Py.is_ascii m = true /\
                   Spec.trimmed m /\ Py.capitalize m = m)
         (Home.clean medicines_list) /\
  Home.clean (Home.clean medicines_list) = Home.clean medicines_list.
Proof.
  intro Hascii. split.
  - apply Forall_forall. intros m Hm. split; [|apply (clean_member _ _ Hm)].
    unfold Home.clean in Hm. apply in_map_iff in Hm.
    destruct Hm as (x & <- & Hx). apply filter_In in Hx.
    rewrite Forall_forall in Hascii.
    rewrite capitalize_ascii. apply strip_ascii, Hascii, Hx.
  - pose proof (clean_member medicines_list) as Hm.
    induction (Home.clean medicines_list) as [|m t IH]; [reflexivity|].
    destruct (Hm m (or_introl eq_refl)) as ((Hne & Hs) & Hc).
    unfold Home.clean in *. cbn [filter]. rewrite Hs.
    destruct m as [|c r]; [congruence|]. cbn [Py.truthy map].
    rewrite Hs, Hc. f_equal. apply IH.
    intros x Hx. apply Hm. right. exact Hx.
Qed.

Lemma home_clean_normal_form_witness :
  Home.clean (Home.clean [" dOLO 650 "; "  "; "crocin"]) =
  Home.clean [" dOLO 650 "; "  "; "crocin"].
Proof.
  apply (home_clean_normal_form [" dOLO 650 "; "  "; "crocin"]).
  repeat constructor.
Defined.

(** ** Results that report no mismatch *)

(** X15.  A result never reports better than a mismatch without a
    reference name behind it.  In app.py a result whose status is not
    Mismatch has a name of the reference as closest match and a score of at
    least 70; in Home.py a result with the flag No has a reference name as
    closest match and a score of at least 90. *)
Theorem no_mismatch_names_a_reference :
  (forall medicine_name entered_list,
      exists rs,
        App.detect medicine_name entered_list = Some rs /\
        Forall (fun r =>
                  App.Status r <> App.MISMATCH ->
                  In (App.Closest_Match r) (App.display_names medicine_name) /\
                  (70 <= App.Match_Score r)%Q) rs) /\
  (forall refs medicines_list,
      Forall (fun r =>
                Home.Mismatch r = Home.NO ->
                exists ref, In ref refs /\ Home.Closest_Match r = Some ref /\
                            (90 <= Home.Match_Score r)%Q)
             (Home.detect refs medicines_list)).
Proof.
  split.
  - intros col entered. apply detect_Forall. intros med r Hr.
    apply match_entry_cases in Hr.
    destruct Hr as [[_ ->]|(d & i & -> & Hd & _)];
      cbn [App.Status App.Closest_Match App.Match_Score]; intro Hs.
    + congruence.
    + split; [eapply nth_error_In; eassumption|].
      match goal with
      | |- (70 <= ?q)%Q =>
          destruct (Qlt_le_dec q 70) as [L|L]; [|exact L];
          exfalso; apply Hs;
          exact (proj2 (proj2 (status_of_thresholds q)) L)
      end.
  - intros refs meds. unfold Home.detect. apply Forall_forall.
    intros r Hr. apply in_map_iff in Hr. destruct Hr as (med & <- & _).
    destruct (check_cases refs med) as [[-> _]|(c & i & -> & _ & Hb)];
      cbn [Home.Mismatch Home.Closest_Match Home.Match_Score]; intro Hf.
    + discriminate.
    + exists c. split; [destruct Hb as (Hc & _); eapply nth_error_In; eassumption|].
      split; [reflexivity|].
      destruct (RapidFuzz.Qltb _ 90) eqn:E; [discriminate|].
      apply Qltb_ge, E.
Qed.

Lemma no_mismatch_names_a_reference_witness :
  exists ref,
    In ref ["Crocin"; "Dolo"] /\
    Home.Closest_Match (Home.check ["Crocin"; "Dolo"] "Dolo") = Some ref /\
    (90 <= Home.Match_Score (Home.check ["Crocin"; "Dolo"] "Dolo"))%Q.
Proof.
  pose proof (proj2 no_mismatch_names_a_reference ["Crocin"; "Dolo"] ["Dolo"])
    as H.
  apply Forall_inv in H. apply H. reflexivity.
Defined.
